(** * Weighted aggregation and ideology derivation of the ECP dashboard

    A shallow embedding of the computational core of [src/app.py]:
    [porcentaje_ponderado], [weighted_mean], the data preparation of
    [plot_weighted_bar] and [plot_grouped_reasons], and [engineer_ideology].
    The charts that the two [plot_] functions draw from their frame
    [perc_df] are not part of the embedding, and neither is the cache of
    [st.cache_data], which stores the results of functions that have no
    effect.

    Numbers.  pandas stores the survey columns as float64.  The embedding
    idealises a finite float64 as an exact rational ([Q]); a missing value
    (NaN) in a column is [None].  Sums, products and quotients are the
    exact ones: what a theorem says a result equals is the value of the
    formula before rounding, and statements that the specification makes
    "up to floating-point tolerance" are stated with [==] on [Q].  An
    inequality about a result is stated only where rounding keeps it (a
    sum of non-negative numbers is not negative, a part divided by the
    whole it was added into is at most 1); an upper bound that rounding can
    break is stated of the exact value of the formula, not of the result.
    Comparisons of a cell with a constant ([==], [between], the bin edges of
    [pd.cut]) involve no rounding.  The only place where the program can
    create a non-finite number from finite ones in this idealisation is a
    division that is not guarded against a zero divisor; its result type
    [float64] has NaN and the two infinities; numbers so large that a sum
    or a product leaves the range of float64 are outside the idealisation.
    The module [F64] gives the
    weighted percentage and the weighted mean in binary64 itself, to
    compute what rounding does on small tables.

    Objects.  The aggregation functions only read their table and are
    functions of a [DataFrame] value.  [engineer_ideology] copies its table
    and assigns columns to the copy; it runs in a state monad over a store
    of frames, so that what it leaves untouched can be stated. *)

From Stdlib Require Import QArith Lqa Lia Sorted PrimFloat.
From stdpp Require Import base strings list list_numbers pretty.

Open Scope Q_scope.

(** ** Numbers *)

Inductive float64 : Type :=
| Num (q : Q)
| NaN
| Inf (negative : bool).

Definition Qlt_bool (a b : Q) : bool := negb (Qle_bool b a).

(** numpy true division of two finite numbers. *)
Definition np_div (a b : Q) : float64 :=
  if Qeq_bool b 0 then
    (if Qeq_bool a 0 then NaN else Inf (Qlt_bool a 0))
  else Num (a / b).

(** numpy product of a float64 and a finite scalar. *)
Definition np_mul (x : float64) (k : Q) : float64 :=
  match x with
  | Num q => Num (q * k)
  | NaN => NaN
  | Inf s => if Qeq_bool k 0 then NaN else Inf (xorb s (Qlt_bool k 0))
  end.

(** ** Exceptions

    [KeyError], [TypeError] and [ValueError] are Python's.  [OutsideModel]
    marks the situations that the embedding does not describe: a reference
    that names no object (Python has none), grouping by a categorical column
    (whose result depends on the pandas version) and a failure whose
    exception depends on the pandas version.  No theorem below rests on
    it. *)

Inductive exn : Type :=
| KeyError (key : string)
| TypeError
| ValueError
| OutsideModel.

Inductive result (A : Type) : Type :=
| Ok (a : A)
| Raise (e : exn).
Arguments Ok {A} a.
Arguments Raise {A} e.

Definition bind {A B : Type} (m : result A) (k : A -> result B) : result B :=
  match m with
  | Ok a => k a
  | Raise e => Raise e
  end.

Notation "x <- m ;; k" := (bind m (fun x => k))
  (at level 100, m at next level, right associativity).

Fixpoint mapM {A B : Type} (f : A -> result B) (l : list A) : result (list B) :=
  match l with
  | [] => Ok []
  | a :: l' => b <- f a ;; bs <- mapM f l' ;; Ok (b :: bs)
  end.

(** ** Series and data frames *)

(** A column is a float64 column (NaN is [None]) or the categorical column
    that [pd.cut] produces (a missing category is [None]). *)
Inductive Series : Type :=
| Float64 (xs : list (option Q))
| Categorical (xs : list (option string)).

(** A data frame: its columns in order, each with its name.  The frames of
    the program are rectangular (all columns have the length of the index)
    and have distinct column names. *)
Definition DataFrame : Type := list (string * Series).

Definition columns (df : DataFrame) : list string := map fst df.

(** [var in df.columns] *)
Definition in_columns (var : string) (df : DataFrame) : bool :=
  existsb (String.eqb var) (columns df).

Fixpoint get_column (var : string) (df : DataFrame) : option Series :=
  match df with
  | [] => None
  | (n, s) :: df' => if String.eqb n var then Some s else get_column var df'
  end.

(** [df[var]] *)
Definition getitem (df : DataFrame) (var : string) : result Series :=
  match get_column var df with
  | Some s => Ok s
  | None => Raise (KeyError var)
  end.

(** [df[name] = s]: an existing column is replaced where it stands, a new
    one is appended. *)
Fixpoint set_column (name : string) (s : Series) (df : DataFrame) : DataFrame :=
  match df with
  | [] => [(name, s)]
  | (n, c) :: df' =>
      if String.eqb n name then (n, s) :: df' else (n, c) :: set_column name s df'
  end.

Definition series_length (s : Series) : nat :=
  match s with
  | Float64 xs => length xs
  | Categorical xs => length xs
  end.

(** ** Operations on series *)

Definition eq_cell (v : Q) (x : option Q) : bool :=
  match x with
  | Some q => Qeq_bool q v
  | None => false
  end.

(** [s == v] for a number [v]: NaN equals nothing, and a categorical whose
    categories are labels has no element equal to a number. *)
Definition eq_scalar (s : Series) (v : Q) : list bool :=
  match s with
  | Float64 xs => map (eq_cell v) xs
  | Categorical xs => map (fun _ => false) xs
  end.

Definition between_cell (lo hi : Q) (x : option Q) : bool :=
  match x with
  | Some q => Qle_bool lo q && Qle_bool q hi
  | None => false
  end.

(** [s.between(lo, hi)], both ends included; NaN is outside. *)
Definition between (s : Series) (lo hi : Q) : result (list bool) :=
  match s with
  | Float64 xs => Ok (map (between_cell lo hi) xs)
  | Categorical _ => Raise TypeError
  end.

(** Selection of the positions where a boolean mask is true. *)
Fixpoint select {A : Type} (mask : list bool) (xs : list A) : list A :=
  match mask, xs with
  | b :: mask', x :: xs' => if b then x :: select mask' xs' else select mask' xs'
  | _, _ => []
  end.

Definition select_series (mask : list bool) (s : Series) : Series :=
  match s with
  | Float64 xs => Float64 (select mask xs)
  | Categorical xs => Categorical (select mask xs)
  end.

(** [df.loc[mask, var]] *)
Definition loc (df : DataFrame) (mask : list bool) (var : string) : result Series :=
  s <- getitem df var ;; Ok (select_series mask s).

(** Sum of the defined cells ([skipna=True]). *)
Fixpoint nansum (xs : list (option Q)) : Q :=
  match xs with
  | [] => 0
  | Some q :: xs' => q + nansum xs'
  | None :: xs' => nansum xs'
  end.

(** [s.sum()] *)
Definition series_sum (s : Series) : result Q :=
  match s with
  | Float64 xs => Ok (nansum xs)
  | Categorical _ => Raise TypeError
  end.

Definition mul_cell (x y : option Q) : option Q :=
  match x, y with
  | Some a, Some b => Some (a * b)
  | _, _ => None
  end.

Fixpoint zip_with_cells (f : option Q -> option Q -> option Q)
    (xs ys : list (option Q)) : list (option Q) :=
  match xs, ys with
  | x :: xs', y :: ys' => f x y :: zip_with_cells f xs' ys'
  | _, _ => []
  end.

(** [a * b] on two series with the same index. *)
Definition series_mul (a b : Series) : result Series :=
  match a, b with
  | Float64 xs, Float64 ys => Ok (Float64 (zip_with_cells mul_cell xs ys))
  | _, _ => Raise TypeError
  end.

(** [s.where(mask)]: cells outside the mask become missing. *)
Fixpoint where_cells {A : Type} (xs : list (option A)) (mask : list bool)
    : list (option A) :=
  match xs, mask with
  | x :: xs', b :: mask' => (if b then x else None) :: where_cells xs' mask'
  | _, _ => []
  end.

Definition series_where (s : Series) (mask : list bool) : Series :=
  match s with
  | Float64 xs => Float64 (where_cells xs mask)
  | Categorical xs => Categorical (where_cells xs mask)
  end.

(** ** Weighted percentage and weighted mean *)

(** [porcentaje_ponderado(df, var, valor_si)] *)
Definition porcentaje_ponderado (df : DataFrame) (var : string) (valor_si : Q)
    : result Q :=
  if negb (in_columns var df) then Ok 0
  else
    s <- getitem df var ;;
    yes <- loc df (eq_scalar s valor_si) "WEIGHT" ;;
    yes_weight <- series_sum yes ;;
    w <- getitem df "WEIGHT" ;;
    total_weight <- series_sum w ;;
    Ok (if Qeq_bool total_weight 0 then 0 else 100 * yes_weight / total_weight).

(** [weighted_mean(df, var)] *)
Definition weighted_mean (df : DataFrame) (var : string) : result Q :=
  if negb (in_columns var df) then Ok 0
  else
    s <- getitem df var ;;
    mask <- between s 1 5 ;;
    ws <- loc df mask "WEIGHT" ;;
    w <- series_sum ws ;;
    if Qeq_bool w 0 then Ok 0
    else
      vs <- loc df mask var ;;
      ws' <- loc df mask "WEIGHT" ;;
      prod <- series_mul vs ws' ;;
      num <- series_sum prod ;;
      Ok (num / w).

(** Python's builtin [sum]: a left fold from 0. *)
Definition py_sum (l : list Q) : Q := fold_left Qplus l 0.

Fixpoint Qsum (l : list Q) : Q :=
  match l with
  | [] => 0
  | q :: l' => q + Qsum l'
  end.

(** ** Weighted category distribution ([plot_weighted_bar], data part) *)

Definition add_weight (s : Q) (w : option Q) : Q :=
  match w with
  | Some q => s + q
  | None => s
  end.

(** One record enters the groups: the groups are kept in increasing order
    of their key, a missing weight adds nothing. *)
Fixpoint group_add (k : Q) (w : option Q) (g : list (Q * Q)) : list (Q * Q) :=
  match g with
  | [] => [(k, add_weight 0 w)]
  | (k', s) :: g' =>
      match k ?= k' with
      | Eq => (k', add_weight s w) :: g'
      | Lt => (k, add_weight 0 w) :: g
      | Gt => (k', s) :: group_add k w g'
      end
  end.

(** Records whose key is missing belong to no group ([dropna=True]). *)
Fixpoint groupby_cells (keys ws : list (option Q)) (g : list (Q * Q))
    : list (Q * Q) :=
  match keys, ws with
  | Some k :: keys', w :: ws' => groupby_cells keys' ws' (group_add k w g)
  | None :: keys', _ :: ws' => groupby_cells keys' ws' g
  | _, _ => g
  end.

(** [df.groupby(var)[col].sum()]: the selection of a column that the
    table lacks raises KeyError with the message "Column not found: col". *)
Definition groupby_sum (df : DataFrame) (var col : string)
    : result (list (Q * Q)) :=
  k <- getitem df var ;;
  match get_column col df with
  | None => Raise (KeyError ("Column not found: " ++ col))
  | Some w =>
      match k, w with
      | Float64 ks, Float64 ws => Ok (groupby_cells ks ws [])
      | Float64 _, Categorical _ => Raise TypeError
      | Categorical _, _ => Raise OutsideModel
      end
  end.

(** [labels.get(k)] on a dict with numeric keys. *)
Fixpoint dict_get (labels : list (Q * string)) (k : Q) : option string :=
  match labels with
  | [] => None
  | (k', v) :: labels' => if Qeq_bool k' k then Some v else dict_get labels' k
  end.

(** [weights / total * 100], still indexed by the raw code. *)
Definition percent_of_total (weights : list (Q * Q)) : list (Q * float64) :=
  let total := Qsum (map snd weights) in
  map (fun kw => (fst kw, np_mul (np_div (snd kw) total) 100)) weights.

(** The frame [perc_df] that [plot_weighted_bar] hands to the chart: one row
    per raw code, the code mapped through [labels] (a code without a label
    becomes missing), and its percentage.  [reset_index] cannot insert the
    codes as a column named like the series of percentages, which is still
    called WEIGHT at that point; and once that series is renamed "percent",
    a variable of that name no longer selects one column. *)
Definition plot_weighted_bar (df : DataFrame) (var : string)
    (labels : list (Q * string)) : result (list (option string * float64)) :=
  weights <- groupby_sum df var "WEIGHT" ;;
  let perc := percent_of_total weights in
  if String.eqb var "WEIGHT" then Raise ValueError
  else if String.eqb var "percent" then Raise OutsideModel
  else Ok (map (fun kp => (dict_get labels (fst kp), snd kp)) perc).

(** ** Grouped indicators ([plot_grouped_reasons], data part) *)

(** [df.loc[df[code] == 1, "WEIGHT"].sum()] *)
Definition indicator_weight (df : DataFrame) (code : string) : result Q :=
  s <- getitem df code ;;
  yes <- loc df (eq_scalar s 1) "WEIGHT" ;;
  series_sum yes.

Definition group_percent (df : DataFrame) (total : Q) (codes : list string)
    : result Q :=
  terms <- mapM (indicator_weight df)
             (List.filter (fun code => in_columns code df) codes) ;;
  let w := py_sum terms in
  Ok (if Qeq_bool total 0 then 0 else 100 * w / total).

(** The frame [perc_df] of [plot_grouped_reasons]: one row per group. *)
Definition plot_grouped_reasons (df : DataFrame)
    (group_map : list (string * list string)) : result (list (string * Q)) :=
  ws <- getitem df "WEIGHT" ;;
  total <- series_sum ws ;;
  mapM (fun g => pct <- group_percent df total (snd g) ;; Ok (fst g, pct)) group_map.

(** ** Ideology derivation ([engineer_ideology]) *)

(** The label of the interval [(lo, hi]] of consecutive bin edges that
    holds [x] ([pd.cut] with [right=True], [include_lowest=False]). *)
Fixpoint cut_value (bins : list Q) (labels : list string) (x : Q) : option string :=
  match bins with
  | [] => None
  | lo :: bins' =>
      match bins', labels with
      | hi :: _, lab :: labels' =>
          if Qlt_bool lo x && Qle_bool x hi then Some lab
          else cut_value bins' labels' x
      | _, _ => None
      end
  end.

Definition cut_cell (bins : list Q) (labels : list string) (x : option Q)
    : option string :=
  match x with
  | Some q => cut_value bins labels q
  | None => None
  end.

(** [pd.cut(s, bins=bins, labels=labels)] *)
Definition pd_cut (s : Series) (bins : list Q) (labels : list string)
    : result Series :=
  match s with
  | Float64 xs => Ok (Categorical (map (cut_cell bins labels) xs))
  | Categorical _ => Raise TypeError
  end.

Definition ideology_bins : list Q := [0; 3.5; 6.5; 10].
Definition ideology_labels : list string := ["Izquierda"; "Centro"; "Derecha"]%string.

(** Data frames are mutable objects: a variable holds a reference into a
    store of frames, [df.copy()] allocates a new object, and
    [df[name] = s] updates the object in place. *)
Abbreviation ref := nat (only parsing).
Abbreviation heap := (list DataFrame) (only parsing).

Definition M (A : Type) : Type := heap -> result A * heap.

Definition ret {A : Type} (a : A) : M A := fun h => (Ok a, h).

Definition lift {A : Type} (r : result A) : M A := fun h => (r, h).

Definition bindM {A B : Type} (m : M A) (k : A -> M B) : M B :=
  fun h =>
    match m h with
    | (Ok a, h') => k a h'
    | (Raise e, h') => (Raise e, h')
    end.

Notation "x <~ m ;; k" := (bindM m (fun x => k))
  (at level 100, m at next level, right associativity).
Notation "m ;;; k" := (bindM m (fun _ => k))
  (at level 100, right associativity).

Definition deref (r : ref) : M DataFrame :=
  fun h =>
    match h !! r with
    | Some df => (Ok df, h)
    | None => (Raise OutsideModel, h)
    end.

Definition alloc (df : DataFrame) : M ref :=
  fun h => (Ok (length h), h ++ [df]).

Definition store (r : ref) (df : DataFrame) : M unit :=
  fun h => (Ok tt, <[r := df]> h).

(** [df.copy()] *)
Definition df_copy (r : ref) : M ref :=
  df <~ deref r ;; alloc df.

(** [var in df.columns] *)
Definition df_in_columns (var : string) (r : ref) : M bool :=
  df <~ deref r ;; ret (in_columns var df).

(** [df[var]] *)
Definition df_getitem (r : ref) (var : string) : M Series :=
  df <~ deref r ;; lift (getitem df var).

(** [df.loc[mask, var]] *)
Definition df_loc (r : ref) (mask : list bool) (var : string) : M Series :=
  df <~ deref r ;; lift (loc df mask var).

(** [df[name] = s] *)
Definition df_setitem (r : ref) (name : string) (s : Series) : M unit :=
  df <~ deref r ;; store r (set_column name s df).

(** [engineer_ideology(df)]; the local [df] is rebound to the copy. *)
Definition engineer_ideology (df0 : ref) : M ref :=
  df <~ df_copy df0 ;;
  present <~ df_in_columns "P5328" df ;;
  if present then
    p <~ df_getitem df "P5328" ;;
    g <~ lift (pd_cut p ideology_bins ideology_labels) ;;
    df_setitem df "ideology_group" g ;;;
    p1 <~ df_getitem df "P5328" ;;
    mask <~ lift (between p1 1 10) ;;
    w <~ df_loc df mask "WEIGHT" ;;
    p2 <~ df_getitem df "P5328" ;;
    df_setitem df "ideology_score" (series_where p2 mask) ;;;
    ret df
  else ret df.

(** ** Charts of several variables ([plot_importance_bar], [plot_reasons]) *)

(** The frame [imp_df] of [plot_importance_bar]: a row for each variable of
    [var_map] that the table has, with its label and its weighted mean. *)
Fixpoint plot_importance_bar (df : DataFrame) (var_map : list (string * string))
    : result (list (string * Q)) :=
  match var_map with
  | [] => Ok []
  | (var, label) :: var_map' =>
      if in_columns var df then
        m <- weighted_mean df var ;;
        rows <- plot_importance_bar df var_map' ;;
        Ok ((label, m) :: rows)
      else plot_importance_bar df var_map'
  end.

(** The frame [perc_df] of [plot_reasons]: a row for each variable of
    [reason_vars] that the table has, with its label and the weighted
    percentage of the value 1. *)
Fixpoint plot_reasons (df : DataFrame) (reason_vars : list (string * string))
    : result (list (string * Q)) :=
  match reason_vars with
  | [] => Ok []
  | (var, label) :: reason_vars' =>
      if in_columns var df then
        pct <- porcentaje_ponderado df var 1 ;;
        rows <- plot_reasons df reason_vars' ;;
        Ok ((label, pct) :: rows)
      else plot_reasons df reason_vars'
  end.

(** ** Stacked distributions by level *)

(** [100 * df.loc[df[var] == lvl, "WEIGHT"].sum() / tot if tot else 0] *)
Definition level_share (df : DataFrame) (tot : Q) (var : string) (lvl : Z) : result Q :=
  s <- getitem df var ;;
  yes <- loc df (eq_scalar s (inject_Z lvl)) "WEIGHT" ;;
  w <- series_sum yes ;;
  Ok (if Qeq_bool tot 0 then 0 else 100 * w / tot).

(** The frame [likert_df] of the tab "Distribución" of the importance view:
    for each variable, in turn, the share of each level 1 to 5. *)
Definition likert_df (df : DataFrame) (importance_vars : list (string * string))
    : result (list (string * string * Q)) :=
  ws <- getitem df "WEIGHT" ;;
  tot <- series_sum ws ;;
  rec <- mapM (fun vl =>
                 mapM (fun lvl =>
                         pct <- level_share df tot (fst vl) lvl ;;
                         Ok (snd vl, pretty lvl, pct))
                      (seqZ 1 5))
              importance_vars ;;
  Ok (concat rec).



(** ** Weighted mean of the ideology scale ([w_mean_1_10]) *)

(** [w_mean_1_10(df, var)]: the condition [w.sum()] is evaluated first;
    the result is [None] when it is zero. *)
Definition w_mean_1_10 (df : DataFrame) (var : string) : result (option Q) :=
  s <- getitem df var ;;
  mask <- between s 1 10 ;;
  w <- loc df mask "WEIGHT" ;;
  wsum <- series_sum w ;;
  if Qeq_bool wsum 0 then Ok None
  else
    vs <- loc df mask var ;;
    prod <- series_mul vs w ;;
    num <- series_sum prod ;;
    wsum' <- series_sum w ;;
    Ok (Some (num / wsum')).

(** ** Share of missing values ([df.isna().mean().mul(100)]) *)

Definition isna_cell {A : Type} (x : option A) : bool :=
  match x with
  | Some _ => false
  | None => true
  end.

Definition isna (s : Series) : list bool :=
  match s with
  | Float64 xs => map isna_cell xs
  | Categorical xs => map isna_cell xs
  end.

Definition count_true (bs : list bool) : nat := length (List.filter id bs).

(** Mean of a boolean column; the mean of no cell is NaN. *)
Definition bool_mean (bs : list bool) : float64 :=
  np_div (inject_Z (Z.of_nat (count_true bs))) (inject_Z (Z.of_nat (length bs))).

(** One row per column of the table, in the order of the columns. *)
Definition missing_percent (df : DataFrame) : list (string * float64) :=
  map (fun c => (fst c, np_mul (bool_mean (isna (snd c))) 100)) df.

(** ** Choice of a reason by its label *)

(** [d[k] = v] on a dict of strings. *)
Fixpoint dict_set (k v : string) (d : list (string * string)) : list (string * string) :=
  match d with
  | [] => [(k, v)]
  | (k', v') :: d' =>
      if String.eqb k' k then (k', v) :: d' else (k', v') :: dict_set k v d'
  end.

Fixpoint dict_find (k : string) (d : list (string * string)) : option string :=
  match d with
  | [] => None
  | (k', v) :: d' => if String.eqb k' k then Some v else dict_find k d'
  end.

(** [d[k]] *)
Definition dict_getitem (d : list (string * string)) (k : string) : result string :=
  match dict_find k d with
  | Some v => Ok v
  | None => Raise (KeyError k)
  end.

(** [{v: k for k, v in d.items()}] *)
Definition invert_dict (d : list (string * string)) : list (string * string) :=
  fold_left (fun inv kv => dict_set (snd kv) (fst kv) inv) d [].

(** The values of the two pie charts of the selected reason: for each
    round, the weighted percentage and its complement to 100. *)
Definition no_identify_pies (df2019 df2023 : DataFrame)
    (to_no_identify : list (string * string)) (razon_sel : string)
    : result (list (Q * Q)) :=
  var <- dict_getitem (invert_dict to_no_identify) razon_sel ;;
  yes19 <- porcentaje_ponderado df2019 var 1 ;;
  yes23 <- porcentaje_ponderado df2023 var 1 ;;
  Ok [(yes19, 100 - yes19); (yes23, 100 - yes23)].

(** ** The two aggregates in binary64 *)

(** The same two functions on columns of binary64 numbers, with the
    rounding of every operation.  A column is a list of floats, NaN being
    the missing value.  [sum] is numpy's reduction of a column of at most
    eight cells (NaN counted as 0, the first cell plus the running sum of
    the others); longer columns are added in blocks, which this module does
    not describe. *)
Module F64.

Definition column : Type := list float.
Definition frame : Type := list (string * column).

Definition in_columns (var : string) (df : frame) : bool :=
  existsb (String.eqb var) (map fst df).

Fixpoint get_column (var : string) (df : frame) : option column :=
  match df with
  | [] => None
  | (n, s) :: df' => if String.eqb n var then Some s else get_column var df'
  end.

Definition getitem (df : frame) (var : string) : result column :=
  match get_column var df with
  | Some s => Ok s
  | None => Raise (KeyError var)
  end.

Definition eq_scalar (s : column) (v : float) : list bool :=
  map (fun x => PrimFloat.eqb x v) s.

Definition between (s : column) (lo hi : float) : list bool :=
  map (fun x => PrimFloat.leb lo x && PrimFloat.leb x hi) s.

Definition loc (df : frame) (mask : list bool) (var : string) : result column :=
  s <- getitem df var ;; Ok (select mask s).

Definition fill_zero (x : float) : float :=
  if PrimFloat.is_nan x then 0%float else x.

Definition sum (s : column) : float :=
  match map fill_zero s with
  | [] => 0%float
  | x :: rest => PrimFloat.add x (fold_left PrimFloat.add rest 0%float)
  end.

Fixpoint mul (a b : column) : column :=
  match a, b with
  | x :: a', y :: b' => PrimFloat.mul x y :: mul a' b'
  | _, _ => []
  end.

Definition porcentaje_ponderado (df : frame) (var : string) (valor_si : float)
    : result float :=
  if negb (in_columns var df) then Ok 0%float
  else
    s <- getitem df var ;;
    yes <- loc df (eq_scalar s valor_si) "WEIGHT" ;;
    let yes_weight := sum yes in
    w <- getitem df "WEIGHT" ;;
    let total_weight := sum w in
    Ok (if PrimFloat.eqb total_weight 0 then 0%float
        else PrimFloat.div (PrimFloat.mul 100 yes_weight) total_weight).

Definition weighted_mean (df : frame) (var : string) : result float :=
  if negb (in_columns var df) then Ok 0%float
  else
    s <- getitem df var ;;
    let mask := between s 1 5 in
    ws <- loc df mask "WEIGHT" ;;
    let w := sum ws in
    if PrimFloat.eqb w 0 then Ok 0%float
    else
      vs <- loc df mask var ;;
      ws' <- loc df mask "WEIGHT" ;;
      Ok (PrimFloat.div (sum (mul vs ws')) w).

End F64.

(** ** The aggregates as the specification words them, over records *)

(** The records of a table seen through one variable: value and weight. *)
Definition records (vs ws : list (option Q)) : list (option Q * option Q) :=
  zip vs ws.

Definition weight_of (w : option Q) : Q :=
  match w with
  | Some q => q
  | None => 0
  end.

(** Sum of WEIGHT over the records whose value satisfies [P]. *)
Fixpoint weight_over (P : option Q -> bool) (recs : list (option Q * option Q)) : Q :=
  match recs with
  | [] => 0
  | (x, w) :: recs' =>
      if P x then weight_of w + weight_over P recs' else weight_over P recs'
  end.

Definition total_weight (recs : list (option Q * option Q)) : Q :=
  weight_over (fun _ => true) recs.

(** 100 x (WEIGHT of the records whose value is [v]) / (WEIGHT of all). *)
Definition spec_weighted_percentage (recs : list (option Q * option Q)) (v : Q) : Q :=
  100 * weight_over (eq_cell v) recs / total_weight recs.

(** Sum of value x WEIGHT over records. *)
Fixpoint weighted_total (recs : list (option Q * option Q)) : Q :=
  match recs with
  | [] => 0
  | (Some v, w) :: recs' => v * weight_of w + weighted_total recs'
  | (None, _) :: recs' => weighted_total recs'
  end.

Definition in_range (lo hi : Q) (x : option Q) : Prop :=
  exists q, x = Some q /\ lo <= q /\ q <= hi.



Definition nonneg_cell (w : option Q) : Prop :=
  match w with
  | Some q => 0 <= q
  | None => True
  end.






(** All columns have [n] cells. *)
Definition rectangular (df : DataFrame) (n : nat) : Prop :=
  Forall (fun c => series_length (snd c) = n) df.

(** The weight that a grouping holds for the code [k]. *)
Fixpoint group_weight (g : list (Q * Q)) (k : Q) : Q :=
  match g with
  | [] => 0
  | (k', s) :: g' => if Qeq_bool k' k then s + group_weight g' k else group_weight g' k
  end.

Definition is_present (x : option Q) : bool :=
  match x with
  | Some _ => true
  | None => false
  end.

(** Total WEIGHT of the records whose value is not missing. *)
Definition present_weight (recs : list (option Q * option Q)) : Q :=
  weight_over is_present recs.


(** Order of the groups by their code. *)
Definition key_lt (a b : Q * Q) : Prop := fst a < fst b.

Definition has_key (g : list (Q * Q)) (k : Q) : Prop :=
  Exists (fun e => fst e == k) g.

(** ** The derived columns, as functions of the placement column *)

Definition ideology_group_of (ps : list (option Q)) : Series :=
  Categorical (map (cut_cell ideology_bins ideology_labels) ps).

Definition ideology_score_of (ps : list (option Q)) : Series :=
  Float64 (where_cells ps (map (between_cell 1 10) ps)).

Definition with_ideology (ps : list (option Q)) (df : DataFrame) : DataFrame :=
  set_column "ideology_score" (ideology_score_of ps)
    (set_column "ideology_group" (ideology_group_of ps) df).

(** What a call of [engineer_ideology] on a reference to [df] does to the
    store [h], by the shape of [df]. *)
Definition engineer_outcome (h : heap) (df : DataFrame) : result ref * heap :=
  match get_column "P5328" df with
  | None => (Ok (length h), h ++ [df])
  | Some (Categorical _) => (Raise TypeError, h ++ [df])
  | Some (Float64 ps) =>
      match get_column "WEIGHT" df with
      | None =>
          (Raise (KeyError "WEIGHT"),
           h ++ [set_column "ideology_group" (ideology_group_of ps) df])
      | Some _ => (Ok (length h), h ++ [with_ideology ps df])
      end
  end.

(** The ideology group that [engineer_ideology] derives for record [i] of
    [df], when [df] is the only object of the store. *)
Definition derived_group (df : DataFrame) (i : nat) : option (option string) :=
  match engineer_ideology 0%nat [df] with
  | (Ok r, h) =>
      match h !! r ≫= get_column "ideology_group" with
      | Some (Categorical gs) => gs !! i
      | _ => None
      end
  | (Raise _, _) => None
  end.

(** ** Notions used to state the behaviour of the charts and views *)

(** The records whose value lies in [lo, hi]. *)
Definition range_records (lo hi : Q) (recs : list (option Q * option Q))
    : list (option Q * option Q) :=
  List.filter (fun r => between_cell lo hi (fst r)) recs.

(** The column [var], if the table has it, is a column of numbers. *)
Definition numeric_column (df : DataFrame) (var : string) : Prop :=
  match get_column var df with
  | Some (Categorical _) => False
  | _ => True
  end.

(** The entries of a dict of variables that the table has. *)
Definition present_vars (df : DataFrame) (vars : list (string * string))
    : list (string * string) :=
  List.filter (fun vl => in_columns (fst vl) df) vars.

(** The share of the level [lvl] of a column, of the total weight. *)
Definition share_of (s : Series) (ws : list (option Q)) (lvl : Z) : Q :=
  if Qeq_bool (nansum ws) 0 then 0
  else 100 * nansum (select (eq_scalar s (inject_Z lvl)) ws) / nansum ws.



(** The last key of a dict that holds the value [v]. *)
Fixpoint last_key_of (v : string) (d : list (string * string)) : option string :=
  match d with
  | [] => None
  | (k, v') :: d' =>
      match last_key_of v d' with
      | Some k' => Some k'
      | None => if String.eqb v' v then Some k else None
      end
  end.

(** ** Example tables *)

Definition t_vote : DataFrame :=
  [ ("WEIGHT"%string, Float64 [Some 2; Some 3; Some 5]);
    ("P6933"%string, Float64 [Some 1; Some 2; Some 99]) ].


(** The label maps [global_participacion] and [group_to_codes] of the program. *)
Definition global_participacion : list (Q * string) :=
  [ (1, "Sí votó"); (2, "No votó"); (99, "NS/NR") ]%string.

Definition group_to_codes : list (string * list string) :=
  [ ("Animadversión política",
     ["P5336S6"; "P5336S7"; "P5336S8"; "P5336S10"; "P5336S19"; "P5336S11"]);
    ("Dificultad logística", ["P5336S14"; "P5336S15"; "P5336S17"; "P5336S13"]);
    ("Menor ó Cedula", ["P5336S1"; "P5336S2"]);
    ("Otra", ["P5336S12"]) ]%string.

(** One respondent who gave two reasons of the same group. *)
Definition t_two_reasons : DataFrame :=
  [ ("WEIGHT"%string, Float64 [Some 1]);
    ("P5336S6"%string, Float64 [Some 1]);
    ("P5336S7"%string, Float64 [Some 1]) ].

(** A table whose weights sum to zero. *)
Definition t_zero_weight : DataFrame :=
  [ ("WEIGHT"%string, Float64 [Some 0]);
    ("P6933"%string, Float64 [Some 1]) ].


Definition t_ideology : DataFrame :=
  [ ("WEIGHT"%string, Float64 [Some 1; Some 1; Some 1; Some 1; Some 1; Some 1]);
    ("P5328"%string,
     Float64 [Some 3.5; Some 3.5001; Some 6.5; Some 7; Some 11; None]) ].

Definition t_low_placement : DataFrame :=
  [ ("WEIGHT"%string, Float64 [Some 1]);
    ("P5328"%string, Float64 [Some 0.5]) ].

(** The dicts [to_vote] and [to_no_identify] of the program. *)
Definition to_vote : list (string * string) :=
  [ ("P5337S1", "Apoyo al candidato");
    ("P5337S2", "Programa de gobierno");
    ("P5337S3", "Ideología política");
    ("P5337S4", "Responsabilidad ciudadana");
    ("P5337S5", "Influencia familiar/social") ]%string.

Definition to_no_identify : list (string * string) :=
  [ ("P5324S2", "Falta de credibilidad en los partidos");
    ("P5324S3", "Desinterés");
    ("P5324S4", "La política se puede hacer por otras vías");
    ("P5324S6", "Promesas incumplidas");
    ("P5324S7", "Escándalos de corrupción");
    ("P5324S8", "Persiguen intereses diferentes al bienestar de la comunidad");
    ("P5324S5", "Otra razón") ]%string.

(** Two small rounds: the second lacks one of the reasons of the first. *)
Definition t_round_a : DataFrame :=
  [ ("WEIGHT"%string, Float64 [Some 1; Some 3]);
    ("P5337S1"%string, Float64 [Some 1; Some 2]);
    ("P5337S2"%string, Float64 [Some 1; Some 1]);
    ("P5324S3"%string, Float64 [Some 2; Some 1]);
    ("P5321S1"%string, Float64 [Some 5; Some 99]);
    ("P5328"%string, Float64 [Some 2; Some 8]) ].

Definition t_round_b : DataFrame :=
  [ ("WEIGHT"%string, Float64 [Some 2; Some 2]);
    ("P5337S1"%string, Float64 [Some 2; Some 1]);
    ("P5324S3"%string, Float64 [None; Some 1]);
    ("P5328"%string, Float64 [Some 11; Some 5]) ].

(** The example tables of the specification in binary64, and two tables
    of one record, of weight 0.69 and of weight 0.49. *)
Definition f_vote : F64.frame :=
  [ ("WEIGHT"%string, [2; 3; 5]%float);
    ("P6933"%string, [1; 2; 99]%float) ].


Definition f_one_voter : F64.frame :=
  [ ("WEIGHT"%string, [0x1.6147ae147ae14p-1]%float);
    ("P6933"%string, [1]%float) ].


(** * Proofs *)

(** ** Columns *)

Lemma in_columns_get (var : string) (df : DataFrame) :
  in_columns var df = true <-> is_Some (get_column var df).
Proof.
  unfold in_columns, columns.
  induction df as [|[n s] df IH]; simpl.
  - split; [discriminate | intros [? ?]; discriminate].
  - rewrite (String.eqb_sym var n). destruct (String.eqb n var); simpl.
    + split; eauto.
    + exact IH.
Qed.

Lemma in_columns_elem (var : string) (df : DataFrame) :
  in_columns var df = true <-> var ∈ columns df.
Proof.
  unfold in_columns. rewrite existsb_exists. split.
  - intros (x & Hin & Heq). apply String.eqb_eq in Heq. subst.
    by apply list_elem_of_In.
  - intros Hin. exists var. split; [by apply list_elem_of_In | apply String.eqb_refl].
Qed.

Lemma in_columns_absent (var : string) (df : DataFrame) :
  var ∉ columns df -> in_columns var df = false.
Proof.
  intros Hn. destruct (in_columns var df) eqn:E; [|done].
  apply in_columns_elem in E. contradiction.
Qed.

Lemma getitem_Some (df : DataFrame) (var : string) (s : Series) :
  get_column var df = Some s -> getitem df var = Ok s.
Proof. unfold getitem. by intros ->. Qed.

Lemma in_columns_Some (df : DataFrame) (var : string) (s : Series) :
  get_column var df = Some s -> in_columns var df = true.
Proof. intros H. apply in_columns_get. eauto. Qed.

(** ** Sums of weights *)

Lemma between_cell_spec (lo hi : Q) (x : option Q) :
  between_cell lo hi x = true <-> in_range lo hi x.
Proof.
  unfold between_cell, in_range. destruct x as [q|].
  - rewrite andb_true_iff, !Qle_bool_iff. split.
    + intros [? ?]. eauto.
    + intros (q' & [= <-] & ? & ?). auto.
  - split; [discriminate | intros (q' & ? & _); discriminate].
Qed.

Lemma nansum_select (P : option Q -> bool) (vs ws : list (option Q)) :
  nansum (select (map P vs) ws) == weight_over P (records vs ws).
Proof.
  revert ws. induction vs as [|v vs IH]; intros [|w ws]; simpl; try reflexivity.
  destruct (P v); simpl; [|apply IH].
  destruct w as [q|]; simpl; rewrite IH; lra.
Qed.

Lemma nansum_total (vs ws : list (option Q)) :
  length vs = length ws -> nansum ws == total_weight (records vs ws).
Proof.
  unfold total_weight.
  revert ws. induction vs as [|v vs IH]; intros [|w ws] Hl; simpl in *;
    try discriminate; try reflexivity.
  destruct w as [q|]; simpl; rewrite IH by lia; lra.
Qed.

Lemma weight_over_bounds (P : option Q -> bool) (vs ws : list (option Q)) :
  Forall nonneg_cell ws ->
  0 <= weight_over P (records vs ws) /\
  weight_over P (records vs ws) <= total_weight (records vs ws).
Proof.
  unfold total_weight.
  intros Hw. revert vs. induction Hw as [|w ws Hq _ IH]; intros [|v vs]; simpl;
    try lra.
  specialize (IH vs). destruct w as [q|]; simpl in *; destruct (P v); lra.
Qed.

Lemma Qeq_bool_false (a b : Q) : Qeq_bool a b = false <-> ~ a == b.
Proof.
  split.
  - intros H E. apply Qeq_bool_iff in E. congruence.
  - intros H. destruct (Qeq_bool a b) eqn:E; [|done].
    apply Qeq_bool_iff in E. contradiction.
Qed.

(** ** Weighted percentage *)

Lemma porcentaje_ponderado_unfold (df : DataFrame) (var : string) (v : Q)
    (vs ws : list (option Q)) :
  get_column var df = Some (Float64 vs) ->
  get_column "WEIGHT" df = Some (Float64 ws) ->
  porcentaje_ponderado df var v =
    Ok (if Qeq_bool (nansum ws) 0 then 0
        else 100 * nansum (select (map (eq_cell v) vs) ws) / nansum ws).
Proof.
  intros Hv Hw. unfold porcentaje_ponderado, loc.
  rewrite (in_columns_Some _ _ _ Hv), (getitem_Some _ _ _ Hv),
    (getitem_Some _ _ _ Hw). reflexivity.
Qed.

Lemma percentage_range (a t : Q) :
  0 <= a -> a <= t -> ~ t == 0 -> 0 <= 100 * a / t /\ 100 * a / t <= 100.
Proof.
  intros Ha Hat Ht. assert (0 < t) by lra. split.
  - apply Qle_shift_div_l; [done | lra].
  - apply Qle_shift_div_r; [done | lra].
Qed.

Lemma exact_share_range (a t : Q) :
  0 <= a -> a <= t -> 0 <= 100 * a / t /\ 100 * a / t <= 100.
Proof.
  intros Ha Hat. destruct (Qeq_dec t 0) as [Hz|Hnz].
  - assert (100 * a / t == 0) as ->
      by (unfold Qdiv; rewrite Hz; change (/ 0) with 0; ring).
    lra.
  - by apply percentage_range.
Qed.

(** C7, as the code has it: on a table that has the variable, the weighted
    percentage is 100 x (WEIGHT of the records whose value equals the match
    value) / (WEIGHT of all records), and 0 when the total weight is zero;
    with non-negative weights it is not negative and the exact value of
    that quotient lies in [0,100] (the rounded result can be above 100);
    on the table [(2, 1); (3, 2); (5, 99)] the percentage of P6933 = 1 is
    20, in exact arithmetic and in binary64. *)
Theorem porcentaje_ponderado_weighted_share (df : DataFrame) (var : string)
    (v : Q) (vs ws : list (option Q)) :
  get_column var df = Some (Float64 vs) ->
  get_column "WEIGHT" df = Some (Float64 ws) ->
  length vs = length ws ->
  exists p, porcentaje_ponderado df var v = Ok p /\
    (~ total_weight (records vs ws) == 0 ->
       p == spec_weighted_percentage (records vs ws) v) /\
    (total_weight (records vs ws) == 0 -> p = 0) /\
    (Forall nonneg_cell ws ->
       0 <= p /\
       0 <= spec_weighted_percentage (records vs ws) v /\
       spec_weighted_percentage (records vs ws) v <= 100) /\
    (exists p0, porcentaje_ponderado t_vote "P6933" 1 = Ok p0 /\ p0 == 20) /\
    F64.porcentaje_ponderado f_vote "P6933" 1 = Ok 20%float.
Proof.
  intros Hv Hw Hl. eexists. split; [by apply porcentaje_ponderado_unfold|].
  pose proof (nansum_total vs ws Hl) as Ht.
  pose proof (nansum_select (eq_cell v) vs ws) as Hy.
  assert (Forall nonneg_cell ws ->
          0 <= spec_weighted_percentage (records vs ws) v /\
          spec_weighted_percentage (records vs ws) v <= 100) as Hexact.
  { intros Hnn. destruct (weight_over_bounds (eq_cell v) vs ws Hnn).
    by apply exact_share_range. }
  assert ((exists p0, porcentaje_ponderado t_vote "P6933" 1 = Ok p0 /\ p0 == 20) /\
          F64.porcentaje_ponderado f_vote "P6933" 1 = Ok 20%float) as Hex.
  { split; [eexists; split; reflexivity | reflexivity]. }
  destruct (Qeq_bool (nansum ws) 0) eqn:E.
  - apply Qeq_bool_iff in E. split; [|split; [|split; [|exact Hex]]].
    + intros Hnz. exfalso. apply Hnz. by rewrite <- Ht.
    + reflexivity.
    + intros Hnn. split; [lra | by apply Hexact].
  - apply Qeq_bool_false in E. split; [|split; [|split; [|exact Hex]]].
    + intros _. unfold spec_weighted_percentage. by rewrite Hy, Ht.
    + intros Hz. exfalso. apply E. by rewrite Ht.
    + intros Hnn. split; [|by apply Hexact].
      destruct (weight_over_bounds (eq_cell v) vs ws Hnn).
      apply percentage_range; [| |done]; lra.
Qed.

Lemma porcentaje_ponderado_weighted_share_witness :
  exists p, porcentaje_ponderado t_vote "P6933" 2 = Ok p /\ p == 30 /\ 0 <= p.
Proof.
  destruct (porcentaje_ponderado_weighted_share t_vote "P6933" 2
              [Some 1; Some 2; Some 99] [Some 2; Some 3; Some 5]
              eq_refl eq_refl eq_refl) as (p & Hp & Hs & _ & Hr & _).
  exists p. split; [exact Hp|]. split.
  - rewrite Hs; [reflexivity | discriminate].
  - apply Hr. repeat constructor; simpl; lra.
Defined.

(** The claim C7 fails in binary64 on one record of weight 0.69 whose value
    is the match value: the result, 100 * 0.69 / 0.69 with its two
    roundings, is above 100. *)
Lemma porcentaje_ponderado_above_100 :
  exists p : float,
    F64.porcentaje_ponderado f_one_voter "P6933" 1 = Ok p /\
    PrimFloat.ltb 100 p = true.
Proof. eexists. split; vm_compute; reflexivity. Qed.

(** C8: for a variable that is not among the columns, the weighted
    percentage and the weighted mean both return 0.0 and do not raise. *)
Theorem absent_variable_zero (df : DataFrame) (var : string) (v : Q) :
  var ∉ columns df ->
  porcentaje_ponderado df var v = Ok 0 /\ weighted_mean df var = Ok 0.
Proof.
  intros Hn. unfold porcentaje_ponderado, weighted_mean.
  rewrite (in_columns_absent _ _ Hn). split; reflexivity.
Qed.

Lemma absent_variable_zero_witness :
  porcentaje_ponderado t_vote "P5336S1" 1 = Ok 0 /\
  weighted_mean t_vote "P5336S1" = Ok 0.
Proof.
  apply (absent_variable_zero t_vote "P5336S1" 1).
  vm_compute. intros H. repeat (apply elem_of_cons in H as [H|H]; [discriminate|]).
  by apply elem_of_nil in H.
Defined.

(** ** Weighted mean *)

Lemma weighted_mean_unfold (df : DataFrame) (var : string)
    (vs ws : list (option Q)) :
  get_column var df = Some (Float64 vs) ->
  get_column "WEIGHT" df = Some (Float64 ws) ->
  weighted_mean df var =
    Ok (let mask := map (between_cell 1 5) vs in
        let w := nansum (select mask ws) in
        if Qeq_bool w 0 then 0
        else nansum (zip_with_cells mul_cell (select mask vs) (select mask ws)) / w).
Proof.
  intros Hv Hw. unfold weighted_mean, loc.
  rewrite (in_columns_Some _ _ _ Hv), (getitem_Some _ _ _ Hv),
    (getitem_Some _ _ _ Hw). simpl.
  by destruct (Qeq_bool _ 0).
Qed.

Lemma weight_over_filter (P : option Q -> bool) (recs : list (option Q * option Q)) :
  weight_over P recs == total_weight (List.filter (fun r => P (fst r)) recs).
Proof.
  unfold total_weight.
  induction recs as [|[x w] recs IH]; simpl; [reflexivity|].
  destruct (P x); simpl; rewrite IH; reflexivity.
Qed.

Lemma nansum_products (P : option Q -> bool) (vs ws : list (option Q)) :
  nansum (zip_with_cells mul_cell (select (map P vs) vs) (select (map P vs) ws))
  == weighted_total (List.filter (fun r => P (fst r)) (records vs ws)).
Proof.
  revert ws. induction vs as [|v vs IH]; intros [|w ws]; simpl; try reflexivity.
  - by destruct (P v), (select _ vs).
  - destruct (P v); simpl; [|apply IH].
    destruct v as [a|], w as [b|]; simpl; rewrite IH; lra.
Qed.







(** ** Ideology derivation *)

Lemma get_column_set_eq (name : string) (s : Series) (df : DataFrame) :
  get_column name (set_column name s df) = Some s.
Proof.
  induction df as [|[n c] df IH]; simpl.
  - by rewrite String.eqb_refl.
  - destruct (String.eqb n name) eqn:E; simpl; rewrite E; [done | exact IH].
Qed.

Lemma get_column_set_ne (name var : string) (s : Series) (df : DataFrame) :
  name <> var -> get_column var (set_column name s df) = get_column var df.
Proof.
  intros Hne. induction df as [|[n c] df IH]; simpl.
  - apply String.eqb_neq in Hne. by rewrite Hne.
  - destruct (String.eqb n name) eqn:E; simpl.
    + apply String.eqb_eq in E. subst n.
      apply String.eqb_neq in Hne. by rewrite Hne.
    + by rewrite IH.
Qed.

Lemma set_column_same (name : string) (s : Series) (df : DataFrame) :
  get_column name df = Some s -> set_column name s df = df.
Proof.
  induction df as [|[n c] df IH]; simpl; [discriminate|].
  destruct (String.eqb n name) eqn:E.
  - by intros [= ->].
  - intros H. by rewrite IH.
Qed.

Lemma set_column_new (name : string) (s : Series) (df : DataFrame) :
  name ∉ columns df -> set_column name s df = df ++ [(name, s)].
Proof.
  induction df as [|[n c] df IH]; simpl; [done|].
  intros Hn. apply not_elem_of_cons in Hn as [Hne Hn].
  destruct (String.eqb n name) eqn:E.
  - apply String.eqb_eq in E. congruence.
  - by rewrite IH.
Qed.

Lemma columns_set_column (name : string) (s : Series) (df : DataFrame) (c : string) :
  c ∈ columns (set_column name s df) <-> c ∈ columns df \/ c = name.
Proof.
  induction df as [|[n x] df IH]; simpl.
  - rewrite list_elem_of_singleton, elem_of_nil. tauto.
  - destruct (String.eqb n name) eqn:E; simpl.
    + apply String.eqb_eq in E. subst n. rewrite !elem_of_cons. tauto.
    + rewrite !elem_of_cons, IH. tauto.
Qed.

Lemma get_column_None (var : string) (df : DataFrame) :
  get_column var df = None <-> var ∉ columns df.
Proof.
  rewrite <- in_columns_elem, in_columns_get, eq_None_not_Some. tauto.
Qed.

Lemma deref_fresh (h : heap) (d : DataFrame) :
  deref (length h) (h ++ [d]) = (Ok d, h ++ [d]).
Proof. unfold deref. by rewrite list_lookup_middle. Qed.

Lemma store_fresh (h : heap) (d d' : DataFrame) :
  store (length h) d' (h ++ [d]) = (Ok tt, h ++ [d']).
Proof.
  unfold store. rewrite insert_app_r_alt by lia.
  by rewrite Nat.sub_diag.
Qed.

Section Run.

Variable h : heap.
Variable r : ref.
Variable df : DataFrame.
Hypothesis Hr : h !! r = Some df.

(** The whole effect of a call, for every table. *)
Lemma engineer_ideology_run : engineer_ideology r h = engineer_outcome h df.
Proof.
  unfold engineer_ideology, engineer_outcome.
  unfold bindM at 1. unfold df_copy, bindM at 1. unfold deref at 1. rewrite Hr.
  unfold alloc.
  unfold bindM at 1. unfold df_in_columns, bindM at 1. rewrite deref_fresh.
  unfold ret at 1.
  destruct (get_column "P5328" df) as [p|] eqn:Hp.
  2:{ assert (in_columns "P5328" df = false) as ->; [|done].
      destruct (in_columns "P5328" df) eqn:E; [|done].
      apply in_columns_get in E as [? E]. congruence. }
  rewrite (in_columns_Some _ _ _ Hp).
  unfold bindM at 1. unfold df_getitem at 1, bindM at 1. rewrite deref_fresh.
  unfold lift at 1. rewrite (getitem_Some _ _ _ Hp).
  unfold bindM at 1. unfold lift at 1.
  destruct p as [ps|cs]; simpl pd_cut; [|done].
  fold (ideology_group_of ps).
  unfold bindM at 1. unfold df_setitem at 1, bindM at 1. rewrite deref_fresh, store_fresh.
  set (d1 := set_column "ideology_group" (ideology_group_of ps) df).
  assert (get_column "P5328" d1 = Some (Float64 ps)) as Hp1.
  { unfold d1. by rewrite get_column_set_ne. }
  unfold bindM at 1. unfold df_getitem at 1, bindM at 1. rewrite deref_fresh.
  unfold lift at 1. rewrite (getitem_Some _ _ _ Hp1).
  unfold bindM at 1. unfold lift at 1. simpl between.
  unfold bindM at 1. unfold df_loc at 1, bindM at 1. rewrite deref_fresh.
  unfold lift at 1, loc.
  assert (get_column "WEIGHT" d1 = get_column "WEIGHT" df) as Hw1.
  { unfold d1. by rewrite get_column_set_ne. }
  unfold getitem at 1. rewrite Hw1.
  destruct (get_column "WEIGHT" df) as [w|]; simpl bind; [|done].
  unfold bindM at 1. unfold df_getitem at 1, bindM at 1. rewrite deref_fresh.
  unfold lift at 1. rewrite (getitem_Some _ _ _ Hp1).
  unfold bindM at 1. unfold df_setitem at 1, bindM at 1. rewrite deref_fresh, store_fresh.
  reflexivity.
Qed.

(** A call on a table with a numeric placement column and a WEIGHT column
    returns the copy with the two derived columns. *)
Lemma engineer_ideology_group (ps : list (option Q)) (w : Series) :
  get_column "P5328" df = Some (Float64 ps) ->
  get_column "WEIGHT" df = Some w ->
  engineer_ideology r h = (Ok (length h), h ++ [with_ideology ps df]) /\
  (h ++ [with_ideology ps df]) !! length h = Some (with_ideology ps df) /\
  get_column "ideology_group" (with_ideology ps df) = Some (ideology_group_of ps) /\
  get_column "ideology_score" (with_ideology ps df) = Some (ideology_score_of ps).
Proof.
  intros Hp Hw. rewrite engineer_ideology_run.
  unfold engineer_outcome. rewrite Hp, Hw. repeat split.
  - by apply list_lookup_middle.
  - unfold with_ideology. rewrite get_column_set_ne by done.
    apply get_column_set_eq.
  - apply get_column_set_eq.
Qed.

End Run.

Lemma Qle_bool_false (a b : Q) : Qle_bool a b = false <-> b < a.
Proof.
  split.
  - intros H. apply Qnot_le_lt. intros E. apply Qle_bool_iff in E. congruence.
  - intros H. destruct (Qle_bool a b) eqn:E; [|done].
    apply Qle_bool_iff in E. lra.
Qed.

Ltac bool_to_Q :=
  repeat match goal with
  | H : Qle_bool _ _ = true |- _ => apply Qle_bool_iff in H
  | H : Qle_bool _ _ = false |- _ => apply Qle_bool_false in H
  end.

Ltac split_Qle :=
  unfold Qlt_bool;
  repeat match goal with
  | |- context [Qle_bool ?a ?b] =>
      let E := fresh "E" in destruct (Qle_bool a b) eqn:E
  end; bool_to_Q; simpl; try reflexivity; try (exfalso; lra).

(** The three buckets of [pd.cut] with the edges of the program. *)
Lemma cut_value_ideology (q : Q) :
  (0 < q /\ q <= 3.5 -> cut_value ideology_bins ideology_labels q = Some "Izquierda"%string) /\
  (3.5 < q /\ q <= 6.5 -> cut_value ideology_bins ideology_labels q = Some "Centro"%string) /\
  (6.5 < q /\ q <= 10 -> cut_value ideology_bins ideology_labels q = Some "Derecha"%string) /\
  (q <= 0 \/ 10 < q -> cut_value ideology_bins ideology_labels q = None).
Proof.
  unfold ideology_bins, ideology_labels, cut_value.
  repeat split; intros H; try destruct H as [H1 H2]; try destruct H as [H|H];
    split_Qle.
Qed.

Lemma with_ideology_other (ps : list (option Q)) (df : DataFrame) (c : string) :
  c <> "ideology_group"%string -> c <> "ideology_score"%string ->
  get_column c (with_ideology ps df) = get_column c df.
Proof.
  intros Hg Hs. unfold with_ideology.
  rewrite !get_column_set_ne by congruence. reflexivity.
Qed.

Lemma with_ideology_fixed (ps : list (option Q)) (df : DataFrame) :
  with_ideology ps (with_ideology ps df) = with_ideology ps df.
Proof.
  unfold with_ideology at 1.
  rewrite (set_column_same "ideology_group" (ideology_group_of ps)).
  - apply set_column_same. unfold with_ideology. apply get_column_set_eq.
  - unfold with_ideology. rewrite get_column_set_ne by done.
    apply get_column_set_eq.
Qed.

Lemma ideology_group_lookup (ps : list (option Q)) (i : nat) (x : option Q) :
  ps !! i = Some x ->
  map (cut_cell ideology_bins ideology_labels) ps !! i
  = Some (cut_cell ideology_bins ideology_labels x).
Proof. intros H. change map with (@fmap list _). by rewrite list_lookup_fmap, H. Qed.

(** C4, as the code has it: a placement of 3.5 is in the bucket
    "Izquierda" (the intervals are closed on the right), 3.5001 and 6.5 are
    in "Centro", 7 is in "Derecha", and 11 or a missing placement has no
    group. *)
Theorem ideology_group_boundaries (h : heap) (r : ref) (df : DataFrame)
    (ps : list (option Q)) (w : Series) :
  h !! r = Some df ->
  get_column "P5328" df = Some (Float64 ps) ->
  get_column "WEIGHT" df = Some w ->
  exists (r' : ref) (h' : heap) (df' : DataFrame) (gs : list (option string)),
    engineer_ideology r h = (Ok r', h') /\
    h' !! r' = Some df' /\
    get_column "ideology_group" df' = Some (Categorical gs) /\
    forall i : nat,
      (forall q : Q, ps !! i = Some (Some q) ->
         (q == 3.5 -> gs !! i = Some (Some "Izquierda"%string)) /\
         (q == 3.5001 -> gs !! i = Some (Some "Centro"%string)) /\
         (q == 6.5 -> gs !! i = Some (Some "Centro"%string)) /\
         (q == 7 -> gs !! i = Some (Some "Derecha"%string)) /\
         (q == 11 -> gs !! i = Some None)) /\
      (ps !! i = Some None -> gs !! i = Some None).
Proof.
  intros Hr Hp Hw.
  destruct (engineer_ideology_group h r df Hr ps w Hp Hw) as (Hrun & Hl & Hg & _).
  eexists _, _, _, _. split; [exact Hrun|]. split; [exact Hl|]. split; [exact Hg|].
  intros i. split.
  - intros q Hq. rewrite (ideology_group_lookup ps i _ Hq). cbn [cut_cell].
    destruct (cut_value_ideology q) as (HI & HC & HD & HN).
    repeat split; intros E.
    + rewrite HI; [done | lra].
    + rewrite HC; [done | lra].
    + rewrite HC; [done | lra].
    + rewrite HD; [done | lra].
    + rewrite HN; [done | lra].
  - intros Hq. by rewrite (ideology_group_lookup ps i _ Hq).
Qed.

Lemma ideology_group_boundaries_witness :
  exists (r' : ref) (h' : heap) (df' : DataFrame) (gs : list (option string)),
    engineer_ideology 0%nat [t_ideology] = (Ok r', h') /\
    h' !! r' = Some df' /\
    get_column "ideology_group" df' = Some (Categorical gs) /\
    gs !! 0%nat = Some (Some "Izquierda"%string).
Proof.
  destruct (ideology_group_boundaries [t_ideology] 0%nat t_ideology
              [Some 3.5; Some 3.5001; Some 6.5; Some 7; Some 11; None]
              (Float64 [Some 1; Some 1; Some 1; Some 1; Some 1; Some 1])
              eq_refl eq_refl eq_refl)
    as (r' & h' & df' & gs & Hrun & Hl & Hg & Hi).
  exists r', h', df', gs. repeat split; try assumption.
  destruct (Hi 0%nat) as [Hq _]. destruct (Hq 3.5 eq_refl) as [H35 _].
  apply H35. reflexivity.
Defined.

(** The claim C4 fails at 3.5: the group is "Izquierda", not "Centro". *)
Lemma ideology_3_5_not_Centro :
  derived_group t_ideology 0 = Some (Some "Izquierda"%string) /\
  derived_group t_ideology 0 <> Some (Some "Centro"%string).
Proof. split; [reflexivity | discriminate]. Qed.

(** C5, as the code has it: a placement outside (0,10], or missing, has no
    ideology group; it is never put in one of the three buckets. *)
Theorem ideology_group_undefined_outside (h : heap) (r : ref) (df : DataFrame)
    (ps : list (option Q)) (w : Series) :
  h !! r = Some df ->
  get_column "P5328" df = Some (Float64 ps) ->
  get_column "WEIGHT" df = Some w ->
  exists (r' : ref) (h' : heap) (df' : DataFrame) (gs : list (option string)),
    engineer_ideology r h = (Ok r', h') /\
    h' !! r' = Some df' /\
    get_column "ideology_group" df' = Some (Categorical gs) /\
    length gs = length ps /\
    forall (i : nat) (x : option Q),
      ps !! i = Some x ->
      ~ (exists q, x = Some q /\ 0 < q /\ q <= 10) ->
      gs !! i = Some None.
Proof.
  intros Hr Hp Hw.
  destruct (engineer_ideology_group h r df Hr ps w Hp Hw) as (Hrun & Hl & Hg & _).
  eexists _, _, _, _. split; [exact Hrun|]. split; [exact Hl|]. split; [exact Hg|].
  split; [apply length_map|].
  intros i x Hx Hout. rewrite (ideology_group_lookup ps i _ Hx).
  destruct x as [q|]; cbn [cut_cell]; [|done].
  destruct (cut_value_ideology q) as (_ & _ & _ & HN).
  rewrite HN; [done|].
  destruct (Qlt_le_dec 0 q) as [Hpos|Hneg]; [|by left].
  right. apply Qnot_le_lt. intros Hle. apply Hout. eauto.
Qed.

Lemma ideology_group_undefined_outside_witness :
  exists (r' : ref) (h' : heap) (df' : DataFrame) (gs : list (option string)),
    engineer_ideology 0%nat [t_ideology] = (Ok r', h') /\
    h' !! r' = Some df' /\
    get_column "ideology_group" df' = Some (Categorical gs) /\
    gs !! 4%nat = Some None.
Proof.
  destruct (ideology_group_undefined_outside [t_ideology] 0%nat t_ideology
              [Some 3.5; Some 3.5001; Some 6.5; Some 7; Some 11; None]
              (Float64 [Some 1; Some 1; Some 1; Some 1; Some 1; Some 1])
              eq_refl eq_refl eq_refl)
    as (r' & h' & df' & gs & Hrun & Hl & Hg & _ & Hi).
  exists r', h', df', gs. repeat split; try assumption.
  apply (Hi 4%nat (Some 11) eq_refl).
  intros (q & [= <-] & _ & Hle). revert Hle. apply Qlt_not_le. reflexivity.
Defined.

(** The claim C5 fails between 0 and 1: the placement 0.5 is outside
    [1,10] and is put in the bucket "Izquierda". *)
Lemma ideology_low_placement_bucketed :
  ~ in_range 1 10 (Some 0.5) /\
  derived_group t_low_placement 0 = Some (Some "Izquierda"%string).
Proof.
  split; [|reflexivity].
  intros (q & [= <-] & Hlo & _). revert Hlo. apply Qlt_not_le. reflexivity.
Qed.

(** C9: a second application to the table that a first application
    returned succeeds and returns a table equal to it, so the two derived
    columns are the same; they are the ones computed from the placement
    column of the original table.  A first application succeeds whenever
    the placement column is absent, or is numeric and WEIGHT is present. *)
Theorem engineer_ideology_idempotent (h : heap) (r : ref) (df : DataFrame) :
  h !! r = Some df ->
  (forall (r1 : ref) (h1 : heap),
     engineer_ideology r h = (Ok r1, h1) ->
     exists (df1 : DataFrame) (r2 : ref) (h2 : heap),
       h1 !! r1 = Some df1 /\
       engineer_ideology r1 h1 = (Ok r2, h2) /\
       h2 !! r2 = Some df1 /\
       (forall ps : list (option Q),
          get_column "P5328" df = Some (Float64 ps) ->
          get_column "ideology_group" df1 = Some (ideology_group_of ps) /\
          get_column "ideology_score" df1 = Some (ideology_score_of ps))) /\
  (get_column "P5328" df = None \/
   (exists (ps : list (option Q)) (w : Series),
      get_column "P5328" df = Some (Float64 ps) /\
      get_column "WEIGHT" df = Some w) ->
   exists (r1 : ref) (h1 : heap), engineer_ideology r h = (Ok r1, h1)).
Proof.
  intros Hr. rewrite (engineer_ideology_run h r df Hr). unfold engineer_outcome.
  split.
  - intros r1 h1 Hrun.
    destruct (get_column "P5328" df) as [[ps|cs]|] eqn:Hp; [| discriminate |].
    + destruct (get_column "WEIGHT" df) as [w|] eqn:Hw; [|discriminate].
      injection Hrun as <- <-.
      assert (get_column "P5328" (with_ideology ps df) = Some (Float64 ps)) as Hp1
        by (by rewrite with_ideology_other).
      assert (get_column "WEIGHT" (with_ideology ps df) = Some w) as Hw1
        by (by rewrite with_ideology_other).
      assert ((h ++ [with_ideology ps df]) !! length h = Some (with_ideology ps df))
        as Hl by (by apply list_lookup_middle).
      destruct (engineer_ideology_group _ _ _ Hl ps w Hp1 Hw1) as (Hrun2 & Hl2 & _).
      rewrite with_ideology_fixed in Hrun2, Hl2.
      eexists _, _, _. split; [exact Hl|]. split; [exact Hrun2|]. split; [exact Hl2|].
      intros ps' [= <-]. unfold with_ideology. split.
      * rewrite get_column_set_ne by done. apply get_column_set_eq.
      * apply get_column_set_eq.
    + injection Hrun as <- <-.
      assert ((h ++ [df]) !! length h = Some df) as Hl by (by apply list_lookup_middle).
      pose proof (engineer_ideology_run _ _ _ Hl) as Hrun2.
      unfold engineer_outcome in Hrun2. rewrite Hp in Hrun2.
      eexists _, _, _. split; [exact Hl|]. split; [exact Hrun2|].
      split; [by apply list_lookup_middle | discriminate].
  - intros [Hp | (ps & w & Hp & Hw)]; rewrite Hp; [|rewrite Hw]; eauto.
Qed.

Lemma engineer_ideology_idempotent_witness :
  exists (r1 r2 : ref) (h1 h2 : heap) (df1 : DataFrame),
    engineer_ideology 0%nat [t_ideology] = (Ok r1, h1) /\
    h1 !! r1 = Some df1 /\
    engineer_ideology r1 h1 = (Ok r2, h2) /\
    h2 !! r2 = Some df1.
Proof.
  destruct (engineer_ideology_idempotent [t_ideology] 0%nat t_ideology eq_refl)
    as [Hsame _].
  destruct (Hsame 1%nat (snd (engineer_outcome [t_ideology] t_ideology)) eq_refl)
    as (df1 & r2 & h2 & Hl & Hrun2 & Hl2 & _).
  exists 1%nat, r2, (snd (engineer_outcome [t_ideology] t_ideology)), h2, df1.
  repeat split; try assumption.
Defined.

(** C10: a call changes no object of the store that existed before it, the
    input table included; the table it returns is a new object that agrees
    with the input on every column other than the two derived ones and has
    the input's columns plus, at most, those two (appended at the end when
    the input has neither); when the placement column is absent the
    returned table equals the input. *)
Theorem engineer_ideology_frame (h : heap) (r : ref) (df : DataFrame) :
  h !! r = Some df ->
  exists (res : result ref) (h' : heap),
    engineer_ideology r h = (res, h') /\
    (forall (r0 : ref) (d0 : DataFrame), h !! r0 = Some d0 -> h' !! r0 = Some d0) /\
    (forall r' : ref, res = Ok r' ->
       r' <> r /\
       exists df' : DataFrame,
         h' !! r' = Some df' /\
         (forall c : string,
            c <> "ideology_group"%string -> c <> "ideology_score"%string ->
            get_column c df' = get_column c df) /\
         (forall c : string,
            c ∈ columns df' <->
            c ∈ columns df \/
            ("P5328"%string ∈ columns df /\
             (c = "ideology_group"%string \/ c = "ideology_score"%string))) /\
         ("P5328"%string ∈ columns df ->
          "ideology_group"%string ∉ columns df ->
          "ideology_score"%string ∉ columns df ->
          exists g s : Series,
            df' = df ++ [("ideology_group"%string, g); ("ideology_score"%string, s)]) /\
         ("P5328"%string ∉ columns df -> df' = df)).
Proof.
  intros Hr. rewrite (engineer_ideology_run h r df Hr).
  pose proof (lookup_lt_Some _ _ _ Hr) as Hlt.
  assert (forall d (r0 : ref) (d0 : DataFrame),
            h !! r0 = Some d0 -> (h ++ [d]) !! r0 = Some d0) as Hframe
    by (intros d r0 d0 H0; by apply lookup_app_l_Some).
  unfold engineer_outcome.
  destruct (get_column "P5328" df) as [[ps|cs]|] eqn:Hp.
  - destruct (get_column "WEIGHT" df) as [w|] eqn:Hw.
    + eexists _, _. split; [reflexivity|]. split; [apply Hframe|].
      intros r' [= <-]. split; [lia|].
      exists (with_ideology ps df). split; [by apply list_lookup_middle|].
      assert ("P5328"%string ∈ columns df) as Hin
        by (apply in_columns_elem; eapply in_columns_Some; eauto).
      split; [|split; [|split]].
      * intros c Hg Hs. by apply with_ideology_other.
      * intros c. unfold with_ideology. rewrite !columns_set_column. tauto.
      * intros _ Hg Hs. eexists _, _. unfold with_ideology.
        rewrite (set_column_new "ideology_group") by done.
        rewrite set_column_new.
        -- by rewrite <- app_assoc.
        -- unfold columns. rewrite map_app.
           change (map fst df) with (columns df). simpl.
           rewrite elem_of_app, list_elem_of_singleton. intros [?|?]; [done|discriminate].
      * intros Hn. contradiction.
    + eexists _, _. split; [reflexivity|]. split; [apply Hframe|]. discriminate.
  - eexists _, _. split; [reflexivity|]. split; [apply Hframe|]. discriminate.
  - eexists _, _. split; [reflexivity|]. split; [apply Hframe|].
    intros r' [= <-]. split; [lia|].
    exists df. split; [by apply list_lookup_middle|].
    apply get_column_None in Hp.
    split; [done|]. split; [|split]; [| |done].
    + intros c. tauto.
    + intros Hin. contradiction.
Qed.

Lemma engineer_ideology_frame_witness :
  exists (res : result ref) (h' : heap),
    engineer_ideology 0%nat [t_ideology] = (res, h') /\
    h' !! 0%nat = Some t_ideology.
Proof.
  destruct (engineer_ideology_frame [t_ideology] 0%nat t_ideology eq_refl)
    as (res & h' & Hrun & Hframe & _).
  exists res, h'. split; [exact Hrun|]. by apply Hframe.
Defined.

(** ** Grouped indicators *)

Lemma py_sum_Qsum (l : list Q) : py_sum l == Qsum l.
Proof.
  unfold py_sum.
  assert (forall a, fold_left Qplus l a == a + Qsum l) as H.
  { induction l as [|q l IH]; intros a; simpl; [lra|]. rewrite IH. lra. }
  rewrite H. lra.
Qed.

Lemma indicator_weight_unfold (df : DataFrame) (code : string) (s : Series)
    (ws : list (option Q)) :
  get_column "WEIGHT" df = Some (Float64 ws) ->
  get_column code df = Some s ->
  indicator_weight df code = Ok (nansum (select (eq_scalar s 1) ws)) /\
  porcentaje_ponderado df code 1 =
    Ok (if Qeq_bool (nansum ws) 0 then 0
        else 100 * nansum (select (eq_scalar s 1) ws) / nansum ws).
Proof.
  intros Hw Hc. unfold indicator_weight, porcentaje_ponderado, loc.
  rewrite (in_columns_Some _ _ _ Hc), (getitem_Some _ _ _ Hc),
    (getitem_Some _ _ _ Hw). split; reflexivity.
Qed.

(** A group's percentage is the sum of the weighted percentages of its
    member indicators. *)
Lemma group_percent_sum (df : DataFrame) (ws : list (option Q)) (codes : list string) :
  get_column "WEIGHT" df = Some (Float64 ws) ->
  exists (terms ps : list Q),
    mapM (indicator_weight df)
      (List.filter (fun code => in_columns code df) codes) = Ok terms /\
    mapM (fun code => porcentaje_ponderado df code 1) codes = Ok ps /\
    Qsum ps == (if Qeq_bool (nansum ws) 0 then 0
                else 100 * Qsum terms / nansum ws).
Proof.
  intros Hw. induction codes as [|code codes (terms & ps & Ht & Hp & Hs)].
  - exists [], []. repeat split. simpl. destruct (Qeq_bool _ _); [reflexivity|].
    unfold Qdiv. ring.
  - simpl. destruct (in_columns code df) eqn:Hin.
    + apply in_columns_get in Hin as Hc. destruct Hc as [s Hc].
      destruct (indicator_weight_unfold df code s ws Hw Hc) as [Hi Hpp].
      simpl. rewrite Hi, Ht, Hpp, Hp. simpl.
      eexists _, _. split; [reflexivity|]. split; [reflexivity|].
      simpl. rewrite Hs. destruct (Qeq_bool (nansum ws) 0); [ring|].
      unfold Qdiv. ring.
    + assert (porcentaje_ponderado df code 1 = Ok 0) as ->
        by (unfold porcentaje_ponderado; by rewrite Hin).
      rewrite Ht, Hp. simpl.
      eexists _, _. split; [reflexivity|]. split; [reflexivity|].
      simpl. rewrite Hs. ring.
Qed.

Lemma rectangular_column (df : DataFrame) (n : nat) (code : string) (s : Series) :
  rectangular df n -> get_column code df = Some s -> series_length s = n.
Proof.
  induction 1 as [|[c x] df Hx _ IH]; simpl; [discriminate|].
  destruct (String.eqb c code); [by intros [= <-] | exact IH].
Qed.









(** ** Weighted category distribution *)

Lemma add_weight_eq (s : Q) (w : option Q) : add_weight s w == s + weight_of w.
Proof. destruct w; simpl; lra. Qed.

Lemma Qeq_bool_comp (a b k : Q) : a == b -> Qeq_bool a k = Qeq_bool b k.
Proof.
  intros E. destruct (Qeq_bool b k) eqn:Hb.
  - apply Qeq_bool_iff. apply Qeq_bool_iff in Hb. lra.
  - apply Qeq_bool_false. apply Qeq_bool_false in Hb. lra.
Qed.

Section GroupAdd.

Variable k : Q.
Variable w : option Q.

Lemma group_add_total (g : list (Q * Q)) :
  Qsum (map snd (group_add k w g)) == Qsum (map snd g) + weight_of w.
Proof.
  induction g as [|[k' s] g IH]; cbn [group_add map snd Qsum].
  - pose proof (add_weight_eq 0 w). lra.
  - pose proof (add_weight_eq 0 w). pose proof (add_weight_eq s w).
    destruct (k ?= k'); cbn [map snd Qsum]; lra.
Qed.

Lemma group_add_weight (g : list (Q * Q)) (k0 : Q) :
  group_weight (group_add k w g) k0
  == group_weight g k0 + (if Qeq_bool k k0 then weight_of w else 0).
Proof.
  pose proof (add_weight_eq 0 w) as H0.
  induction g as [|[k' s] g IH]; cbn [group_add group_weight].
  - destruct (Qeq_bool k k0); lra.
  - pose proof (add_weight_eq s w) as Hs.
    destruct (k ?= k') eqn:C; cbn [group_weight].
    + apply Qeq_alt in C. rewrite (Qeq_bool_comp k k' k0 C).
      destruct (Qeq_bool k' k0); lra.
    + destruct (Qeq_bool k k0), (Qeq_bool k' k0); lra.
    + destruct (Qeq_bool k k0), (Qeq_bool k' k0); lra.
Qed.

Lemma group_add_keys (g : list (Q * Q)) (k0 : Q) :
  has_key (group_add k w g) k0 <-> k == k0 \/ has_key g k0.
Proof.
  unfold has_key. induction g as [|[k' s] g IH]; simpl.
  - rewrite Exists_cons, Exists_nil. simpl. tauto.
  - destruct (k ?= k') eqn:C; rewrite !Exists_cons; simpl.
    + apply Qeq_alt in C. split.
      * intros [H|H]; [right; by left | right; by right].
      * intros [H|[H|H]]; [left; lra | by left | by right].
    + tauto.
    + rewrite IH. tauto.
Qed.

Lemma group_add_lower (a : Q * Q) (g : list (Q * Q)) :
  fst a < k -> Forall (key_lt a) g -> Forall (key_lt a) (group_add k w g).
Proof.
  intros Hk. induction 1 as [|[k' s] g Hlt Hg IH]; simpl.
  - repeat constructor. exact Hk.
  - destruct (k ?= k'); repeat constructor; try assumption.
Qed.

Lemma group_add_sorted (g : list (Q * Q)) :
  StronglySorted key_lt g -> StronglySorted key_lt (group_add k w g).
Proof.
  induction 1 as [|[k' s] g Hs IH Hall]; simpl.
  - repeat constructor.
  - destruct (k ?= k') eqn:C.
    + constructor; [exact Hs|].
      eapply Forall_impl; [exact Hall|]. intros e He. exact He.
    + apply Qlt_alt in C. constructor.
      * by constructor.
      * constructor; [exact C|].
        eapply Forall_impl; [exact Hall|]. intros e He.
        unfold key_lt in *. simpl in *. lra.
    + apply Qgt_alt in C. constructor; [exact IH|].
      apply group_add_lower; [exact C | exact Hall].
Qed.

End GroupAdd.

Lemma groupby_total (vs ws : list (option Q)) (g : list (Q * Q)) :
  Qsum (map snd (groupby_cells vs ws g))
  == Qsum (map snd g) + present_weight (records vs ws).
Proof.
  unfold present_weight.
  revert ws g. induction vs as [|[k|] vs IH]; intros [|w ws] g; simpl; try lra.
  - rewrite IH, group_add_total. lra.
  - apply IH.
Qed.

Lemma groupby_weight (vs ws : list (option Q)) (g : list (Q * Q)) (k0 : Q) :
  group_weight (groupby_cells vs ws g) k0
  == group_weight g k0 + weight_over (eq_cell k0) (records vs ws).
Proof.
  revert ws g. induction vs as [|[k|] vs IH]; intros [|w ws] g; simpl; try lra.
  - rewrite IH, group_add_weight. destruct (Qeq_bool k k0); lra.
  - apply IH.
Qed.

Lemma groupby_sorted (vs ws : list (option Q)) (g : list (Q * Q)) :
  StronglySorted key_lt g -> StronglySorted key_lt (groupby_cells vs ws g).
Proof.
  revert ws g. induction vs as [|[k|] vs IH]; intros [|w ws] g Hs; simpl;
    try assumption; apply IH; [by apply group_add_sorted | assumption].
Qed.

Lemma groupby_keys (vs ws : list (option Q)) (g : list (Q * Q)) (k0 : Q) :
  has_key (groupby_cells vs ws g) k0 <->
  has_key g k0 \/
  exists (i : nat) (q : Q) (w : option Q),
    vs !! i = Some (Some q) /\ ws !! i = Some w /\ q == k0.
Proof.
  revert ws g. induction vs as [|x vs IH]; intros ws g.
  - simpl. split; [by left|]. intros [H|(i & q & w & Hi & _)]; [done|].
    rewrite lookup_nil in Hi. discriminate.
  - destruct ws as [|w ws].
    + assert (groupby_cells (x :: vs) [] g = g) as -> by (by destruct x).
      split; [by left|]. intros [H|(i & q & w & _ & Hi & _)]; [done|].
      rewrite lookup_nil in Hi. discriminate.
    + destruct x as [k|]; simpl; rewrite IH.
      * rewrite group_add_keys. split.
        -- intros [[E|H]|(i & q & w' & Hv & Hw & E)].
           ++ right. exists 0%nat, k, w. done.
           ++ by left.
           ++ right. exists (S i), q, w'. done.
        -- intros [H|(i & q & w' & Hv & Hw & E)]; [left; by right|].
           destruct i as [|i]; simpl in *.
           ++ injection Hv as ->. left. by left.
           ++ right. exists i, q, w'. done.
      * split.
        -- intros [H|(i & q & w' & Hv & Hw & E)]; [by left|].
           right. exists (S i), q, w'. done.
        -- intros [H|(i & q & w' & Hv & Hw & E)]; [by left|].
           destruct i as [|i]; simpl in *; [discriminate|].
           right. exists i, q, w'. done.
Qed.

Lemma group_weight_above (g : list (Q * Q)) (a : Q * Q) :
  Forall (key_lt a) g -> group_weight g (fst a) == 0.
Proof.
  induction 1 as [|[k s] g Hlt _ IH]; simpl; [reflexivity|].
  unfold key_lt in Hlt. simpl in Hlt.
  assert (Qeq_bool k (fst a) = false) as -> by (apply Qeq_bool_false; lra).
  exact IH.
Qed.

Lemma sorted_group_weight (g : list (Q * Q)) :
  StronglySorted key_lt g -> Forall (fun e => group_weight g (fst e) == snd e) g.
Proof.
  induction 1 as [|[k s] g Hs IH Hall]; constructor; simpl.
  - assert (Qeq_bool k k = true) as -> by (by apply Qeq_bool_iff).
    rewrite (group_weight_above g (k, s) Hall). lra.
  - rewrite Forall_forall in IH, Hall |- *. intros [k' s'] Hin.
    specialize (IH _ Hin). specialize (Hall _ Hin).
    unfold key_lt in Hall. simpl in *.
    assert (Qeq_bool k k' = false) as -> by (apply Qeq_bool_false; lra).
    exact IH.
Qed.

Lemma plot_weighted_bar_unfold (df : DataFrame) (var : string)
    (labels : list (Q * string)) (vs ws : list (option Q)) :
  var <> "WEIGHT"%string -> var <> "percent"%string ->
  get_column var df = Some (Float64 vs) ->
  get_column "WEIGHT" df = Some (Float64 ws) ->
  plot_weighted_bar df var labels =
    Ok (map (fun kp => (dict_get labels (fst kp), snd kp))
          (percent_of_total (groupby_cells vs ws []))).
Proof.
  intros Hn1 Hn2 Hv Hw. unfold plot_weighted_bar, groupby_sum.
  rewrite (getitem_Some _ _ _ Hv), Hw.
  apply String.eqb_neq in Hn1, Hn2. cbn [bind]. by rewrite Hn1, Hn2.
Qed.







(** ** Tables whose weights sum to zero *)

Lemma porcentaje_ponderado_zero_total (df : DataFrame) (var : string) (v : Q)
    (vs ws : list (option Q)) :
  get_column var df = Some (Float64 vs) ->
  get_column "WEIGHT" df = Some (Float64 ws) ->
  nansum ws == 0 ->
  porcentaje_ponderado df var v = Ok 0.
Proof.
  intros Hv Hw Hz. rewrite (porcentaje_ponderado_unfold df var v vs ws Hv Hw).
  apply Qeq_bool_iff in Hz. by rewrite Hz.
Qed.

Lemma weighted_mean_zero_total (df : DataFrame) (var : string)
    (vs ws : list (option Q)) :
  get_column var df = Some (Float64 vs) ->
  get_column "WEIGHT" df = Some (Float64 ws) ->
  length vs = length ws ->
  Forall nonneg_cell ws ->
  nansum ws == 0 ->
  weighted_mean df var = Ok 0.
Proof.
  intros Hv Hw Hl Hnn Hz. rewrite (weighted_mean_unfold df var vs ws Hv Hw). cbv zeta.
  assert (nansum (select (map (between_cell 1 5) vs) ws) == 0) as H0.
  { rewrite nansum_select.
    destruct (weight_over_bounds (between_cell 1 5) vs ws Hnn) as [Hlo Hhi].
    rewrite <- (nansum_total vs ws Hl) in Hhi. lra. }
  apply Qeq_bool_iff in H0. by rewrite H0.
Qed.

Lemma plot_grouped_reasons_zero_total (df : DataFrame)
    (group_map : list (string * list string)) (ws : list (option Q)) :
  get_column "WEIGHT" df = Some (Float64 ws) ->
  nansum ws == 0 ->
  plot_grouped_reasons df group_map = Ok (map (fun g => (fst g, 0)) group_map).
Proof.
  intros Hw Hz. unfold plot_grouped_reasons.
  rewrite (getitem_Some _ _ _ Hw). cbn [bind series_sum].
  apply Qeq_bool_iff in Hz.
  induction group_map as [|[cat codes] group_map IH]; [reflexivity|].
  destruct (group_percent_sum df ws codes Hw) as (terms & ps & Ht & _).
  cbn [mapM map fst snd]. unfold group_percent at 1. rewrite Ht. cbn [bind].
  rewrite Hz, IH. reflexivity.
Qed.

(** The category distribution has no such guard: when the weights are
    non-negative and sum to zero, every row of its frame is NaN. *)
Lemma plot_weighted_bar_zero_total (df : DataFrame) (var : string)
    (labels : list (Q * string)) (vs ws : list (option Q)) :
  var <> "WEIGHT"%string -> var <> "percent"%string ->
  get_column var df = Some (Float64 vs) ->
  get_column "WEIGHT" df = Some (Float64 ws) ->
  length vs = length ws ->
  Forall nonneg_cell ws ->
  nansum ws == 0 ->
  exists rows : list (option string * float64),
    plot_weighted_bar df var labels = Ok rows /\
    Forall (fun row => snd row = NaN) rows /\
    (forall (i : nat) (q : Q), vs !! i = Some (Some q) -> rows <> []).
Proof.
  intros Hn1 Hn2 Hv Hw Hl Hnn Hz.
  rewrite (plot_weighted_bar_unfold df var labels vs ws Hn1 Hn2 Hv Hw).
  set (g := groupby_cells vs ws []).
  assert (StronglySorted key_lt g) as Hsorted
    by (apply groupby_sorted; constructor).
  assert (forall P, weight_over P (records vs ws) == 0) as Hzero.
  { intros P. destruct (weight_over_bounds P vs ws Hnn) as [Hlo Hhi].
    rewrite <- (nansum_total vs ws Hl) in Hhi. lra. }
  assert (Qsum (map snd g) == 0) as Ht.
  { unfold g. rewrite groupby_total. unfold present_weight.
    rewrite Hzero. reflexivity. }
  eexists. split; [reflexivity|]. split.
  - pose proof (sorted_group_weight g Hsorted) as Hgw.
    unfold percent_of_total. rewrite map_map.
    apply Forall_forall. intros row Hin.
    apply list_elem_of_In, in_map_iff in Hin as ([k s] & <- & Hin0).
    rewrite Forall_forall in Hgw. apply list_elem_of_In in Hin0.
    specialize (Hgw _ Hin0). cbn [fst snd] in *.
    unfold g in Hgw at 1. rewrite groupby_weight, Hzero in Hgw.
    cbn [group_weight] in Hgw.
    assert (s == 0) as Hs by lra.
    apply Qeq_bool_iff in Ht, Hs. unfold np_div. by rewrite Ht, Hs.
  - intros i q Hi Hnil.
    assert (has_key g q) as Hk.
    { unfold g. apply groupby_keys. right.
      destruct (lookup_lt_is_Some_2 ws i) as [w Hwi].
      { rewrite <- Hl. by apply lookup_lt_Some in Hi. }
      exists i, q, w. done. }
    unfold percent_of_total in Hnil. apply map_eq_nil in Hnil.
    apply map_eq_nil in Hnil. rewrite Hnil in Hk.
    unfold has_key in Hk. by apply Exists_nil in Hk.
Qed.

(** C3 at a table of one record of weight zero: the weighted percentage,
    the weighted mean and the grouped indicator return 0, and the category
    distribution returns NaN. *)
Theorem zero_total_weight_distribution_nan :
  porcentaje_ponderado t_zero_weight "P6933" 1 = Ok 0 /\
  weighted_mean t_zero_weight "P6933" = Ok 0 /\
  plot_grouped_reasons t_zero_weight [("Voto"%string, ["P6933"%string])]
    = Ok [("Voto"%string, 0)] /\
  plot_weighted_bar t_zero_weight "P6933" global_participacion
    = Ok [(Some "Sí votó"%string, NaN)].
Proof. repeat split. Qed.

(** * Charts, views and derived columns beyond the aggregates *)

(** ** Shared facts *)

Lemma nansum_mask_bounds (mask : list bool) (ws : list (option Q)) :
  Forall nonneg_cell ws ->
  0 <= nansum (select mask ws) /\ nansum (select mask ws) <= nansum ws.
Proof.
  intros Hw. revert mask. induction Hw as [|w ws Hq _ IH]; intros [|b mask];
    cbn [select nansum]; try (destruct w; cbn [nansum]); try lra.
  - destruct (IH []) as [_ H]. cbn [select nansum] in *.
    destruct ws; simpl in *; lra.
  - destruct (IH []). destruct ws; simpl in *; lra.
  - specialize (IH mask). destruct b; cbn [nansum]; simpl in Hq; lra.
  - specialize (IH mask). destruct b; cbn [nansum]; lra.
Qed.

Lemma nansum_nonneg (ws : list (option Q)) :
  Forall nonneg_cell ws -> 0 <= nansum ws.
Proof.
  induction 1 as [|w ws Hq _ IH]; cbn [nansum]; [lra|].
  destruct w; simpl in Hq; lra.
Qed.

(** The weighted percentage of a column of any kind, with a numeric WEIGHT. *)
Lemma porcentaje_ponderado_present (df : DataFrame) (var : string) (v : Q)
    (s : Series) (ws : list (option Q)) :
  get_column var df = Some s ->
  get_column "WEIGHT" df = Some (Float64 ws) ->
  porcentaje_ponderado df var v =
    Ok (if Qeq_bool (nansum ws) 0 then 0
        else 100 * nansum (select (eq_scalar s v) ws) / nansum ws).
Proof.
  intros Hv Hw. unfold porcentaje_ponderado, loc.
  rewrite (in_columns_Some _ _ _ Hv), (getitem_Some _ _ _ Hv),
    (getitem_Some _ _ _ Hw). reflexivity.
Qed.

Lemma guarded_share_nonneg (a t : Q) :
  0 <= a -> 0 <= t -> 0 <= (if Qeq_bool t 0 then 0 else 100 * a / t).
Proof.
  intros Ha Ht. destruct (Qeq_bool t 0) eqn:E; [lra|].
  apply Qeq_bool_false in E. apply Qle_shift_div_l; lra.
Qed.

(** With a numeric WEIGHT column the weighted percentage never fails, for a
    column of any kind and for a variable that the table lacks, and with
    non-negative weights it is not negative. *)
Lemma porcentaje_ponderado_total (df : DataFrame) (var : string) (v : Q)
    (ws : list (option Q)) :
  get_column "WEIGHT" df = Some (Float64 ws) ->
  exists p : Q,
    porcentaje_ponderado df var v = Ok p /\
    (Forall nonneg_cell ws -> 0 <= p).
Proof.
  intros Hw. destruct (get_column var df) as [s|] eqn:Hv.
  - rewrite (porcentaje_ponderado_present df var v s ws Hv Hw).
    eexists. split; [reflexivity|]. intros Hnn.
    destruct (nansum_mask_bounds (eq_scalar s v) ws Hnn).
    apply guarded_share_nonneg; [done | by apply nansum_nonneg].
  - exists 0. split; [|lra].
    unfold porcentaje_ponderado.
    assert (in_columns var df = false) as ->; [|done].
    destruct (in_columns var df) eqn:E; [|done].
    apply in_columns_get in E as [? E]. congruence.
Qed.

Lemma range_total_bounds (lo hi : Q) (vs ws : list (option Q)) :
  Forall nonneg_cell ws ->
  0 <= total_weight (range_records lo hi (records vs ws)) /\
  lo * total_weight (range_records lo hi (records vs ws))
    <= weighted_total (range_records lo hi (records vs ws)) /\
  weighted_total (range_records lo hi (records vs ws))
    <= hi * total_weight (range_records lo hi (records vs ws)).
Proof.
  unfold range_records, total_weight.
  intros Hw. revert vs. induction Hw as [|w ws Hq _ IH]; intros [|v vs]; simpl;
    try lra.
  specialize (IH vs). destruct (between_cell lo hi v) eqn:Hb; simpl; [|exact IH].
  apply between_cell_spec in Hb as (a & -> & Hlo & Hhi).
  assert (0 <= weight_of w) as H0 by (destruct w; simpl in *; lra).
  assert (lo * weight_of w <= a * weight_of w) by (apply Qmult_le_compat_r; lra).
  assert (a * weight_of w <= hi * weight_of w) by (apply Qmult_le_compat_r; lra).
  lra.
Qed.

(** The two sums of a mean restricted to [lo, hi], as the code computes
    them: the sum of the weights is not negative and the sum of the
    products is at least [lo] times it. *)
Lemma range_mean_lower (lo hi : Q) (vs ws : list (option Q)) :
  Forall nonneg_cell ws ->
  0 <= nansum (select (map (between_cell lo hi) vs) ws) /\
  lo * nansum (select (map (between_cell lo hi) vs) ws)
    <= nansum (zip_with_cells mul_cell
                 (select (map (between_cell lo hi) vs) vs)
                 (select (map (between_cell lo hi) vs) ws)).
Proof.
  intros Hnn.
  pose proof (nansum_select (between_cell lo hi) vs ws) as Hsel.
  rewrite weight_over_filter in Hsel.
  pose proof (nansum_products (between_cell lo hi) vs ws) as Hprod.
  fold (range_records lo hi (records vs ws)) in Hsel, Hprod.
  pose proof (range_total_bounds lo hi vs ws Hnn) as (H0 & Hlo & _).
  rewrite Hsel, Hprod. auto.
Qed.

Lemma quotient_lower (lo num w : Q) :
  0 <= w -> ~ w == 0 -> lo * w <= num -> lo <= num / w.
Proof.
  intros H0 Hnz Hlo. assert (0 < w) by lra.
  apply Qle_shift_div_l; [done | lra].
Qed.

(** With non-negative weights a weighted mean is 0 or at least 1. *)
Lemma weighted_mean_zero_or_above (df : DataFrame) (var : string)
    (vs ws : list (option Q)) :
  get_column var df = Some (Float64 vs) ->
  get_column "WEIGHT" df = Some (Float64 ws) ->
  exists m : Q,
    weighted_mean df var = Ok m /\
    (Forall nonneg_cell ws -> m = 0 \/ 1 <= m).
Proof.
  intros Hv Hw. rewrite (weighted_mean_unfold df var vs ws Hv Hw). cbv zeta.
  eexists. split; [reflexivity|]. intros Hnn.
  destruct (range_mean_lower 1 5 vs ws Hnn) as (H0 & Hlo).
  destruct (Qeq_bool _ 0) eqn:E; [by left|].
  right. apply Qeq_bool_false in E. by apply quotient_lower.
Qed.

(** ** Charts of several variables *)

(** X1 ([plot_reasons]): with a numeric WEIGHT column the frame is built
    without error; it has one row for each variable of the dict that the
    table has, in the order of the dict, with the label of the variable and
    its weighted percentage; a variable that the table lacks gives no row;
    with non-negative weights no percentage is negative. *)
Theorem plot_reasons_rows (df : DataFrame) (reason_vars : list (string * string))
    (ws : list (option Q)) :
  get_column "WEIGHT" df = Some (Float64 ws) ->
  exists rows : list (string * Q),
    plot_reasons df reason_vars = Ok rows /\
    Forall2 (fun vl row =>
               fst row = snd vl /\
               porcentaje_ponderado df (fst vl) 1 = Ok (snd row))
            (present_vars df reason_vars) rows /\
    (Forall nonneg_cell ws -> Forall (fun row => 0 <= snd row) rows).
Proof.
  intros Hw. unfold present_vars.
  induction reason_vars as [|[var label] vars (rows & Hrows & Hall & Hrange)];
    cbn [plot_reasons List.filter fst].
  - exists []. repeat split; constructor.
  - destruct (in_columns var df) eqn:Hin.
    + destruct (porcentaje_ponderado_total df var 1 ws Hw) as (p & Hp & Hpr).
      rewrite Hp, Hrows. cbn [bind].
      eexists. split; [reflexivity|]. split.
      * constructor; [by split | exact Hall].
      * intros Hnn. constructor; [by apply Hpr | by apply Hrange].
    + exists rows. auto.
Qed.

Lemma plot_reasons_rows_witness :
  exists rows : list (string * Q),
    plot_reasons t_round_a to_vote = Ok rows /\ length rows = 2%nat.
Proof.
  destruct (plot_reasons_rows t_round_a to_vote [Some 1; Some 3] eq_refl)
    as (rows & Hrun & Hall & _).
  exists rows. split; [exact Hrun|].
  apply Forall2_length in Hall. by rewrite <- Hall.
Defined.

(** X2 ([plot_importance_bar]): when WEIGHT and the variables are columns
    of numbers the frame is built without error; it has one row for each
    variable of the dict that the table has, in the order of the dict, with
    its label and its weighted mean; with non-negative weights every bar is
    0 (no answer in 1..5 carries weight) or at least 1. *)
Theorem plot_importance_bar_rows (df : DataFrame) (var_map : list (string * string))
    (ws : list (option Q)) :
  get_column "WEIGHT" df = Some (Float64 ws) ->
  Forall (fun vl => numeric_column df (fst vl)) var_map ->
  exists rows : list (string * Q),
    plot_importance_bar df var_map = Ok rows /\
    Forall2 (fun vl row =>
               fst row = snd vl /\ weighted_mean df (fst vl) = Ok (snd row))
            (present_vars df var_map) rows /\
    (Forall nonneg_cell ws ->
     Forall (fun row => snd row = 0 \/ 1 <= snd row) rows).
Proof.
  intros Hw Hnum. unfold present_vars.
  induction Hnum as [|[var label] vars Hv _ (rows & Hrows & Hall & Hrange)];
    cbn [plot_importance_bar List.filter fst].
  - exists []. repeat split; constructor.
  - destruct (in_columns var df) eqn:Hin.
    + apply in_columns_get in Hin as [s Hs].
      unfold numeric_column in Hv. cbn [fst] in Hv. rewrite Hs in Hv.
      destruct s as [vs|cs]; [|done].
      destruct (weighted_mean_zero_or_above df var vs ws Hs Hw) as (m & Hm & Hmr).
      rewrite Hm, Hrows. cbn [bind].
      eexists. split; [reflexivity|]. split.
      * constructor; [by split | exact Hall].
      * intros Hnn. constructor; [by apply Hmr | by apply Hrange].
    + exists rows. auto.
Qed.

Lemma plot_importance_bar_rows_witness :
  exists rows : list (string * Q),
    plot_importance_bar t_round_a
      [("P5321S1", "JAC"); ("P5321S2", "Gob.")]%string = Ok rows /\
    length rows = 1%nat.
Proof.
  destruct (plot_importance_bar_rows t_round_a
              [("P5321S1", "JAC"); ("P5321S2", "Gob.")]%string
              [Some 1; Some 3] eq_refl) as (rows & Hrun & Hall & _).
  - repeat constructor.
  - exists rows. split; [exact Hrun|].
    apply Forall2_length in Hall. by rewrite <- Hall.
Defined.

(** ** Weighted mean of the ideology scale *)




(** ** Stacked distributions by level *)

Lemma mapM_map {A B : Type} (f : A -> result B) (g : A -> B) (l : list A) :
  (forall a, f a = Ok (g a)) -> mapM f l = Ok (map g l).
Proof.
  intros H. induction l as [|a l IH]; cbn [mapM map]; [done|].
  by rewrite H, IH.
Qed.








Lemma level_share_value (df : DataFrame) (var : string) (s : Series)
    (ws : list (option Q)) (lvl : Z) :
  get_column var df = Some s ->
  get_column "WEIGHT" df = Some (Float64 ws) ->
  level_share df (nansum ws) var lvl = Ok (share_of s ws lvl).
Proof.
  intros Hv Hw. unfold level_share, loc, share_of.
  by rewrite (getitem_Some _ _ _ Hv), (getitem_Some _ _ _ Hw).
Qed.

Lemma level_rows (df : DataFrame) (var tag : string) (s : Series)
    (ws : list (option Q)) (levels : list Z) :
  get_column var df = Some s ->
  get_column "WEIGHT" df = Some (Float64 ws) ->
  mapM (fun lvl => pct <- level_share df (nansum ws) var lvl ;; Ok (tag, pretty lvl, pct))
       levels
  = Ok (map (fun lvl => (tag, pretty lvl, share_of s ws lvl)) levels).
Proof.
  intros Hv Hw. apply mapM_map. intros lvl.
  by rewrite (level_share_value df var s ws lvl Hv Hw).
Qed.







(** ** Share of missing values *)

Lemma count_true_le (bs : list bool) : (count_true bs <= length bs)%nat.
Proof.
  unfold count_true. induction bs as [|[] bs IH]; simpl in *; lia.
Qed.

Lemma count_true_zero (bs : list bool) :
  count_true bs = 0%nat <-> Forall (fun b => b = false) bs.
Proof.
  unfold count_true. induction bs as [|[] bs IH]; simpl.
  - split; [constructor | done].
  - split; [discriminate | intros H; by apply Forall_cons in H as [? _]].
  - rewrite IH. split; [by constructor | intros H; by apply Forall_cons in H as [_ ?]].
Qed.

Lemma count_true_all (bs : list bool) :
  count_true bs = length bs <-> Forall (fun b => b = true) bs.
Proof.
  induction bs as [|b bs IH].
  - split; [constructor | done].
  - pose proof (count_true_le bs) as Hle. unfold count_true in *.
    destruct b; simpl.
    + split.
      * intros H. constructor; [done|]. apply IH. lia.
      * intros H. apply Forall_cons in H as [_ H]. apply IH in H. lia.
    + split; [lia | intros H; by apply Forall_cons in H as [? _]].
Qed.

Lemma isna_length (s : Series) : length (isna s) = series_length s.
Proof. destruct s; simpl; apply length_map. Qed.

Lemma inject_nat_zero (n : nat) : inject_Z (Z.of_nat n) == 0 <-> n = 0%nat.
Proof.
  change 0 with (inject_Z 0). rewrite inject_Z_injective. lia.
Qed.

Lemma inject_nat_eq (n m : nat) :
  inject_Z (Z.of_nat n) == inject_Z (Z.of_nat m) <-> n = m.
Proof. rewrite inject_Z_injective. lia. Qed.

Lemma inject_nat_le (n m : nat) :
  (n <= m)%nat -> inject_Z (Z.of_nat n) <= inject_Z (Z.of_nat m).
Proof. intros H. rewrite <- Zle_Qle. lia. Qed.

(** The mean of a boolean column, times 100. *)
Lemma bool_mean_percent (bs : list bool) :
  (length bs = 0%nat -> np_mul (bool_mean bs) 100 = NaN) /\
  (length bs <> 0%nat ->
   exists p : Q,
     np_mul (bool_mean bs) 100 = Num p /\
     0 <= p /\ p <= 100 /\
     (p == 0 <-> Forall (fun b => b = false) bs) /\
     (p == 100 <-> Forall (fun b => b = true) bs)).
Proof.
  unfold bool_mean, np_div. pose proof (count_true_le bs) as Hle. split.
  - intros Hz. rewrite Hz in *. assert (count_true bs = 0%nat) as -> by lia.
    reflexivity.
  - intros Hnz.
    set (c := inject_Z (Z.of_nat (count_true bs))).
    set (n := inject_Z (Z.of_nat (length bs))).
    assert (~ n == 0) as Hn by (unfold n; rewrite inject_nat_zero; done).
    assert (0 <= c) as Hc0.
    { unfold c. change 0 with (inject_Z (Z.of_nat 0)). apply inject_nat_le. lia. }
    assert (c <= n) as Hcn by (by apply inject_nat_le).
    assert (0 < n) as Hpos by lra.
    apply Qeq_bool_false in Hn as Hb. rewrite Hb. cbn [np_mul].
    assert (c / n * 100 * n == c * 100) as E by (field; done).
    eexists. split; [reflexivity|].
    assert (0 <= c / n) as Hq0 by (apply Qle_shift_div_l; [done | lra]).
    assert (c / n <= 1) as Hq1 by (apply Qle_shift_div_r; [done | lra]).
    split; [lra|]. split; [lra|]. split.
    + rewrite <- count_true_zero, <- inject_nat_zero. fold c. split.
      * intros Hp. rewrite Hp in E. lra.
      * intros Hz. rewrite Hz. unfold Qdiv. ring.
    + rewrite <- count_true_all, <- inject_nat_eq. fold c n. split.
      * intros Hp. rewrite Hp in E. lra.
      * intros Hz. rewrite Hz. field. done.
Qed.

(** X7 ([df.isna().mean().mul(100)]): the result has one row per column of
    the table, in the order of the columns; for a table with no record the
    share is NaN; otherwise it is a number in [0,100], which is 0 exactly
    when the column has no missing cell and 100 exactly when every cell of
    the column is missing. *)
Theorem missing_percent_rows (df : DataFrame) :
  Forall2 (fun c row =>
             fst row = fst c /\
             (series_length (snd c) = 0%nat -> snd row = NaN) /\
             (series_length (snd c) <> 0%nat ->
              exists p : Q,
                snd row = Num p /\ 0 <= p /\ p <= 100 /\
                (p == 0 <-> Forall (fun b => b = false) (isna (snd c))) /\
                (p == 100 <-> Forall (fun b => b = true) (isna (snd c)))))
          df (missing_percent df).
Proof.
  unfold missing_percent. induction df as [|[name s] df IH]; cbn [map]; constructor;
    [|exact IH].
  cbn [fst snd]. split; [reflexivity|].
  rewrite <- isna_length. apply bool_mean_percent.
Qed.

(** ** Choice of a reason by its label *)

Lemma dict_find_set (k v l : string) (d : list (string * string)) :
  dict_find l (dict_set k v d) = if String.eqb k l then Some v else dict_find l d.
Proof.
  induction d as [|[k' v'] d IH]; cbn [dict_set dict_find].
  - reflexivity.
  - destruct (String.eqb k' k) eqn:E; cbn [dict_find].
    + apply String.eqb_eq in E. subst k'. by destruct (String.eqb k l).
    + rewrite IH. destruct (String.eqb k' l) eqn:E'; [|done].
      apply String.eqb_eq in E'. subst k'.
      rewrite String.eqb_sym in E. by rewrite E.
Qed.

Lemma invert_fold_find (l : string) (d acc : list (string * string)) :
  dict_find l (fold_left (fun inv kv => dict_set (snd kv) (fst kv) inv) d acc)
  = match last_key_of l d with
    | Some k => Some k
    | None => dict_find l acc
    end.
Proof.
  revert acc. induction d as [|[k v] d IH]; intros acc; cbn [fold_left last_key_of].
  - reflexivity.
  - rewrite IH. cbn [fst snd]. destruct (last_key_of l d); [done|].
    rewrite dict_find_set. by destruct (String.eqb v l).
Qed.

Lemma last_key_of_elem (l k : string) (d : list (string * string)) :
  last_key_of l d = Some k -> (k, l) ∈ d.
Proof.
  induction d as [|[k' v'] d IH]; cbn [last_key_of]; [discriminate|].
  destruct (last_key_of l d) as [k0|].
  - intros [= <-]. apply list_elem_of_further. by apply IH.
  - destruct (String.eqb v' l) eqn:E; [|discriminate].
    apply String.eqb_eq in E. subst v'. intros [= <-]. apply list_elem_of_here.
Qed.

Lemma last_key_of_value (l : string) (d : list (string * string)) :
  l ∈ map snd d -> exists k, last_key_of l d = Some k.
Proof.
  induction d as [|[k' v'] d IH]; cbn [map last_key_of snd].
  - intros H. by apply elem_of_nil in H.
  - intros H. apply elem_of_cons in H as [->|H].
    + destruct (last_key_of v' d); [eauto|]. rewrite String.eqb_refl. eauto.
    + destruct (IH H) as [k ->]. eauto.
Qed.

Lemma dict_find_elem (k l : string) (d : list (string * string)) :
  NoDup (map fst d) -> (k, l) ∈ d -> dict_find k d = Some l.
Proof.
  induction d as [|[k' v'] d IH]; cbn [map fst dict_find].
  - intros _ H. by apply elem_of_nil in H.
  - intros Hnd H. apply NoDup_cons in Hnd as [Hk Hnd].
    apply elem_of_cons in H as [[= -> ->]|H].
    + by rewrite String.eqb_refl.
    + destruct (String.eqb k' k) eqn:E; [|by apply IH].
      apply String.eqb_eq in E. subst k'. exfalso. apply Hk.
      apply list_elem_of_In, in_map_iff. exists (k, l).
      split; [done | by apply list_elem_of_In].
Qed.

(** X8 (the choice of a reason not to identify with a party): for every
    label that the select box offers, the inverted dict gives back a
    variable, without a KeyError, and the label of that variable is the
    selected one; with a numeric WEIGHT in both rounds the two pie charts
    get the weighted percentage of that variable and its complement to 100,
    and with non-negative weights the percentage is not negative. *)
Theorem no_identify_choice (df2019 df2023 : DataFrame)
    (d : list (string * string)) (razon_sel : string)
    (ws19 ws23 : list (option Q)) :
  NoDup (map fst d) ->
  razon_sel ∈ map snd d ->
  get_column "WEIGHT" df2019 = Some (Float64 ws19) ->
  get_column "WEIGHT" df2023 = Some (Float64 ws23) ->
  exists (var : string) (yes19 yes23 : Q),
    dict_getitem (invert_dict d) razon_sel = Ok var /\
    dict_find var d = Some razon_sel /\
    porcentaje_ponderado df2019 var 1 = Ok yes19 /\
    porcentaje_ponderado df2023 var 1 = Ok yes23 /\
    no_identify_pies df2019 df2023 d razon_sel
    = Ok [(yes19, 100 - yes19); (yes23, 100 - yes23)] /\
    (Forall nonneg_cell ws19 -> 0 <= yes19) /\
    (Forall nonneg_cell ws23 -> 0 <= yes23).
Proof.
  intros Hnd Hsel Hw19 Hw23.
  destruct (last_key_of_value razon_sel d Hsel) as [var Hlast].
  assert (dict_getitem (invert_dict d) razon_sel = Ok var) as Hget.
  { unfold dict_getitem, invert_dict. by rewrite invert_fold_find, Hlast. }
  destruct (porcentaje_ponderado_total df2019 var 1 ws19 Hw19) as (y19 & H19 & Hr19).
  destruct (porcentaje_ponderado_total df2023 var 1 ws23 Hw23) as (y23 & H23 & Hr23).
  exists var, y19, y23. split; [exact Hget|].
  split; [apply dict_find_elem; [done | by apply last_key_of_elem]|].
  split; [exact H19|]. split; [exact H23|]. split.
  - unfold no_identify_pies. rewrite Hget. cbn [bind]. by rewrite H19, H23.
  - split; [exact Hr19 | exact Hr23].
Qed.

Lemma no_identify_choice_witness :
  exists (var : string) (yes19 yes23 : Q),
    dict_getitem (invert_dict to_no_identify) "Desinterés" = Ok var /\
    no_identify_pies t_round_a t_round_b to_no_identify "Desinterés"
    = Ok [(yes19, 100 - yes19); (yes23, 100 - yes23)].
Proof.
  destruct (no_identify_choice t_round_a t_round_b to_no_identify "Desinterés"
              [Some 1; Some 3] [Some 2; Some 2])
    as (var & y19 & y23 & Hget & _ & _ & _ & Hrun & _).
  - exact (bool_decide_unpack (NoDup (map fst to_no_identify)) I).
  - exact (bool_decide_unpack ("Desinterés"%string ∈ map snd to_no_identify) I).
  - reflexivity.
  - reflexivity.
  - exists var, y19, y23. by split.
Defined.

(** ** The derived table *)

Lemma in_columns_agree (df df' : DataFrame) (var : string) :
  get_column var df' = get_column var df -> in_columns var df' = in_columns var df.
Proof.
  intros H. destruct (in_columns var df) eqn:E.
  - apply in_columns_get. rewrite H. by apply in_columns_get.
  - destruct (in_columns var df') eqn:E'; [|done].
    apply in_columns_get in E'. rewrite H in E'. apply in_columns_get in E'.
    congruence.
Qed.

Lemma getitem_agree (df df' : DataFrame) (var : string) :
  get_column var df' = get_column var df -> getitem df' var = getitem df var.
Proof. unfold getitem. by intros ->. Qed.

(** The aggregates read the table through the variable and WEIGHT only. *)
Lemma aggregates_agree (df df' : DataFrame) (var : string) :
  get_column var df' = get_column var df ->
  get_column "WEIGHT" df' = get_column "WEIGHT" df ->
  (forall v : Q, porcentaje_ponderado df' var v = porcentaje_ponderado df var v) /\
  weighted_mean df' var = weighted_mean df var /\
  w_mean_1_10 df' var = w_mean_1_10 df var /\
  (forall labels : list (Q * string),
     plot_weighted_bar df' var labels = plot_weighted_bar df var labels).
Proof.
  intros Hv Hw.
  pose proof (in_columns_agree df df' var Hv) as Hin.
  pose proof (getitem_agree df df' var Hv) as Hgv.
  pose proof (getitem_agree df df' "WEIGHT" Hw) as Hgw.
  repeat split.
  - intros v. unfold porcentaje_ponderado, loc. by rewrite Hin, Hgv, Hgw.
  - unfold weighted_mean, loc. by rewrite Hin, Hgv, Hgw.
  - unfold w_mean_1_10, loc. by rewrite Hgv, Hgw.
  - intros labels. unfold plot_weighted_bar, groupby_sum. by rewrite Hgv, Hw.
Qed.

(** X9 ([engineer_ideology] and the aggregates): on the table that a call
    returns, the weighted percentage, the weighted mean, the mean of the
    ideology scale and the category distribution of every variable other
    than the two derived columns are what they are on the input table. *)
Theorem engineer_ideology_keeps_aggregates (h : heap) (r : ref) (df : DataFrame)
    (r' : ref) (h' : heap) :
  h !! r = Some df ->
  engineer_ideology r h = (Ok r', h') ->
  exists df' : DataFrame,
    h' !! r' = Some df' /\
    forall var : string,
      var <> "ideology_group"%string -> var <> "ideology_score"%string ->
      (forall v : Q, porcentaje_ponderado df' var v = porcentaje_ponderado df var v) /\
      weighted_mean df' var = weighted_mean df var /\
      w_mean_1_10 df' var = w_mean_1_10 df var /\
      (forall labels : list (Q * string),
         plot_weighted_bar df' var labels = plot_weighted_bar df var labels).
Proof.
  intros Hr. rewrite (engineer_ideology_run h r df Hr). unfold engineer_outcome.
  destruct (get_column "P5328" df) as [[ps|cs]|] eqn:Hp; [| discriminate |].
  - destruct (get_column "WEIGHT" df) as [w|] eqn:Hw; [|discriminate].
    intros [= <- <-]. exists (with_ideology ps df).
    split; [by apply list_lookup_middle|].
    intros var Hg Hs. apply aggregates_agree.
    + by apply with_ideology_other.
    + by apply with_ideology_other.
  - intros [= <- <-]. exists df. split; [by apply list_lookup_middle|].
    intros var _ _. by apply aggregates_agree.
Qed.

Lemma engineer_ideology_keeps_aggregates_witness :
  exists df' : DataFrame,
    snd (engineer_ideology 0%nat [t_round_a]) !! 1%nat = Some df' /\
    w_mean_1_10 df' "P5328" = w_mean_1_10 t_round_a "P5328".
Proof.
  destruct (engineer_ideology_keeps_aggregates [t_round_a] 0%nat t_round_a 1%nat
              (snd (engineer_ideology 0%nat [t_round_a])) eq_refl eq_refl)
    as (df' & Hl & Hagg).
  exists df'. split; [exact Hl|].
  destruct (Hagg "P5328"%string) as (_ & _ & Hm & _); [discriminate | discriminate|].
  exact Hm.
Defined.

Lemma set_column_rectangular (name : string) (s : Series) (df : DataFrame) (n : nat) :
  rectangular df n -> series_length s = n -> rectangular (set_column name s df) n.
Proof.
  unfold rectangular. intros Hdf Hs.
  induction Hdf as [|[c x] df Hx Hdf IH]; cbn [set_column].
  - by repeat constructor.
  - destruct (String.eqb c name); constructor; try assumption.
Qed.

Lemma where_cells_lookup {A : Type} (f : option A -> bool) (xs : list (option A))
    (i : nat) :
  where_cells xs (map f xs) !! i
  = (fun x => if f x then x else None) <$> xs !! i.
Proof.
  revert i. induction xs as [|x xs IH]; intros [|i]; cbn [map where_cells]; try done.
  apply IH.
Qed.

Lemma where_cells_length {A : Type} (f : option A -> bool) (xs : list (option A)) :
  length (where_cells xs (map f xs)) = length xs.
Proof. induction xs as [|x xs IH]; cbn [map where_cells length]; congruence. Qed.

(** X10 ([engineer_ideology], the two derived columns): on a table whose
    columns all have [n] cells, with a numeric placement column and a
    WEIGHT column, the call returns a table whose columns all have [n]
    cells; a record has a cleaned score exactly when its placement lies in
    [1,10], the score is then the placement, and the record has an ideology
    group. *)
Theorem engineer_ideology_derived_columns (h : heap) (r : ref) (df : DataFrame)
    (ps : list (option Q)) (w : Series) (n : nat) :
  h !! r = Some df ->
  get_column "P5328" df = Some (Float64 ps) ->
  get_column "WEIGHT" df = Some w ->
  rectangular df n ->
  exists (r' : ref) (h' : heap) (df' : DataFrame)
         (gs : list (option string)) (ss : list (option Q)),
    engineer_ideology r h = (Ok r', h') /\
    h' !! r' = Some df' /\
    rectangular df' n /\
    get_column "ideology_group" df' = Some (Categorical gs) /\
    get_column "ideology_score" df' = Some (Float64 ss) /\
    forall (i : nat) (q : Q),
      (ss !! i = Some (Some q) <-> ps !! i = Some (Some q) /\ 1 <= q /\ q <= 10) /\
      (ss !! i = Some (Some q) -> exists label, gs !! i = Some (Some label)).
Proof.
  intros Hr Hp Hw Hrect.
  destruct (engineer_ideology_group h r df Hr ps w Hp Hw) as (Hrun & Hl & Hg & Hs).
  pose proof (rectangular_column df n "P5328" _ Hrect Hp) as Hlen. cbn in Hlen.
  eexists _, _, _, _, _. split; [exact Hrun|]. split; [exact Hl|].
  split; [|split; [exact Hg|split; [exact Hs|]]].
  - unfold with_ideology. apply set_column_rectangular.
    + apply set_column_rectangular; [exact Hrect|].
      cbn. by rewrite length_map.
    + cbn. by rewrite where_cells_length.
  - intros i q.
    assert (where_cells ps (map (between_cell 1 10) ps) !! i = Some (Some q)
            <-> ps !! i = Some (Some q) /\ 1 <= q /\ q <= 10) as Hiff.
    { rewrite where_cells_lookup. destruct (ps !! i) as [x|]; cbn.
      - destruct (between_cell 1 10 x) eqn:Hb.
        + apply between_cell_spec in Hb as (a & -> & Hlo & Hhi). split.
          * intros [= ->]. auto.
          * by intros [? _].
        + split; [discriminate|]. intros [[= ->] [Hlo Hhi]].
          assert (between_cell 1 10 (Some q) = true) as Hb'
            by (apply between_cell_spec; exists q; auto).
          congruence.
      - split; [discriminate | by intros [? _]]. }
    split; [exact Hiff|].
    intros Hss. apply Hiff in Hss as (Hpi & Hlo & Hhi).
    rewrite (ideology_group_lookup ps i _ Hpi). cbn [cut_cell].
    destruct (cut_value_ideology q) as (HI & HC & HD & _).
    destruct (Qlt_le_dec (3.5) q) as [H1|H1].
    + destruct (Qlt_le_dec (6.5) q) as [H2|H2].
      * rewrite HD; [eauto | lra].
      * rewrite HC; [eauto | lra].
    + rewrite HI; [eauto | lra].
Qed.

Lemma engineer_ideology_derived_columns_witness :
  exists (r' : ref) (h' : heap) (df' : DataFrame),
    engineer_ideology 0%nat [t_round_b] = (Ok r', h') /\
    h' !! r' = Some df' /\
    rectangular df' 2.
Proof.
  destruct (engineer_ideology_derived_columns [t_round_b] 0%nat t_round_b
              [Some 11; Some 5] (Float64 [Some 2; Some 2]) 2%nat
              eq_refl eq_refl eq_refl)
    as (r' & h' & df' & gs & ss & Hrun & Hl & Hrect & _).
  - repeat constructor.
  - exists r', h', df'. auto.
Defined.

(** ** Rows of the grouped indicators *)

Lemma absent_percentage (df : DataFrame) (code : string) (v : Q) :
  in_columns code df = false -> porcentaje_ponderado df code v = Ok 0.
Proof. intros H. unfold porcentaje_ponderado. by rewrite H. Qed.

Lemma percent_sum_nonneg (df : DataFrame) (ws : list (option Q)) (codes : list string)
    (ps : list Q) :
  get_column "WEIGHT" df = Some (Float64 ws) ->
  mapM (fun code => porcentaje_ponderado df code 1) codes = Ok ps ->
  (Forall (fun code => in_columns code df = false) codes -> Qsum ps == 0) /\
  (Forall nonneg_cell ws -> 0 <= Qsum ps).
Proof.
  intros Hw. revert ps. induction codes as [|code codes IH]; intros ps; cbn [mapM].
  - intros [= <-]. cbn [Qsum]. split; intros _; [reflexivity | lra].
  - destruct (porcentaje_ponderado_total df code 1 ws Hw) as (p & Hp & Hpr).
    rewrite Hp. cbn [bind].
    destruct (mapM _ codes) as [ps'|] eqn:Hps; cbn [bind]; [|discriminate].
    intros [= <-]. destruct (IH ps' eq_refl) as [Hzero Hbound]. cbn [Qsum]. split.
    + intros Habs. apply Forall_cons in Habs as [Hc Habs].
      rewrite (absent_percentage df code 1 Hc) in Hp. injection Hp as <-.
      rewrite (Hzero Habs). reflexivity.
    + intros Hnn. specialize (Hbound Hnn). specialize (Hpr Hnn). lra.
Qed.

(** X11 ([plot_grouped_reasons], rows): with a numeric WEIGHT column the
    frame has one row per group of the group spec, in its order, also for a
    group none of whose indicators is in the table, whose percentage is 0;
    with non-negative weights no percentage is negative. *)
Theorem plot_grouped_reasons_bounds (df : DataFrame)
    (group_map : list (string * list string)) (ws : list (option Q)) :
  get_column "WEIGHT" df = Some (Float64 ws) ->
  exists rows : list (string * Q),
    plot_grouped_reasons df group_map = Ok rows /\
    Forall2 (fun g row =>
               fst row = fst g /\
               (Forall (fun code => in_columns code df = false) (snd g) ->
                snd row == 0) /\
               (Forall nonneg_cell ws -> 0 <= snd row))
            group_map rows.
Proof.
  intros Hw. unfold plot_grouped_reasons.
  rewrite (getitem_Some _ _ _ Hw). cbn [bind series_sum].
  induction group_map as [|[cat codes] group_map (rows & Hrows & Hall)].
  - exists []. split; [reflexivity | constructor].
  - destruct (group_percent_sum df ws codes Hw) as (terms & ps & Ht & Hp & Hs).
    destruct (percent_sum_nonneg df ws codes ps Hw Hp) as [Hzero Hbound].
    assert (group_percent df (nansum ws) codes =
            Ok (if Qeq_bool (nansum ws) 0 then 0
                else 100 * py_sum terms / nansum ws)) as Hgp
      by (unfold group_percent; by rewrite Ht).
    assert ((if Qeq_bool (nansum ws) 0 then 0
             else 100 * py_sum terms / nansum ws) == Qsum ps) as Heq.
    { rewrite Hs. destruct (Qeq_bool (nansum ws) 0); [reflexivity|].
      by rewrite py_sum_Qsum. }
    cbn [mapM fst snd]. rewrite Hgp. cbn [bind]. rewrite Hrows. cbn [bind].
    eexists. split; [reflexivity|]. constructor; [|exact Hall].
    cbn [fst snd]. split; [reflexivity|]. split.
    + intros Habs. rewrite Heq. by apply Hzero.
    + intros Hnn. rewrite Heq. by apply Hbound.
Qed.

Lemma plot_grouped_reasons_bounds_witness :
  exists rows : list (string * Q),
    plot_grouped_reasons t_two_reasons group_to_codes = Ok rows /\
    Forall (fun row => 0 <= snd row) rows.
Proof.
  destruct (plot_grouped_reasons_bounds t_two_reasons group_to_codes [Some 1] eq_refl)
    as (rows & Hrun & Hall).
  exists rows. split; [exact Hrun|].
  assert (Forall nonneg_cell [Some 1]) as Hnn by (repeat constructor; simpl; lra).
  clear Hrun. induction Hall as [|g row gm rows (_ & _ & Hb) _ IH]; constructor.
  - exact (Hb Hnn).
  - exact IH.
Defined.

(** ** Missing columns *)

Lemma getitem_absent (df : DataFrame) (var : string) :
  var ∉ columns df -> getitem df var = Raise (KeyError var).
Proof. intros H. apply get_column_None in H. unfold getitem. by rewrite H. Qed.

Lemma mapM_app_raise {A B : Type} (f : A -> result B) (pre post : list A) (a : A)
    (e : exn) :
  Forall (fun x => exists b, f x = Ok b) pre -> f a = Raise e ->
  mapM f (pre ++ a :: post) = Raise e.
Proof.
  intros Hpre Ha. induction Hpre as [|x pre [b Hb] _ IH]; cbn [app mapM].
  - by rewrite Ha.
  - by rewrite Hb, IH.
Qed.

(** X14 (a variable that the table lacks): where the weighted percentage
    and the weighted mean return 0, the category distribution and the mean
    of the ideology scale raise KeyError for the variable, and so does the
    frame [likert_df] for the first variable of its dict that the table
    lacks, which [plot_importance_bar] would skip. *)
Theorem absent_variable_raises (df : DataFrame) (var : string) :
  var ∉ columns df ->
  (forall labels : list (Q * string),
     plot_weighted_bar df var labels = Raise (KeyError var)) /\
  w_mean_1_10 df var = Raise (KeyError var) /\
  (forall (ws : list (option Q)) (pre post : list (string * string)) (label : string),
     get_column "WEIGHT" df = Some (Float64 ws) ->
     Forall (fun vl => in_columns (fst vl) df = true) pre ->
     likert_df df (pre ++ (var, label) :: post) = Raise (KeyError var) /\
     plot_importance_bar df (pre ++ (var, label) :: post)
     = plot_importance_bar df (pre ++ post)).
Proof.
  intros Hn. pose proof (getitem_absent df var Hn) as Hg. repeat split.
  - intros labels. unfold plot_weighted_bar, groupby_sum. by rewrite Hg.
  - unfold w_mean_1_10. by rewrite Hg.
  - unfold likert_df. rewrite (getitem_Some _ _ _ H). cbn [bind series_sum].
    rewrite (mapM_app_raise _ pre post (var, label) (KeyError var)); [done| |].
    + eapply Forall_impl; [exact H0|]. intros [v l] Hin. cbn [fst snd] in *.
      apply in_columns_get in Hin as [s Hs].
      rewrite (level_rows df v l s ws _ Hs H). eauto.
    + cbn [fst snd seqZ]. unfold level_share at 1. cbn [mapM]. by rewrite Hg.
  - induction pre as [|[v l] pre IH]; cbn [app plot_importance_bar].
    + by rewrite (in_columns_absent _ _ Hn).
    + apply Forall_cons in H0 as [_ H0]. by rewrite (IH H0).
Qed.

Lemma absent_variable_raises_witness :
  w_mean_1_10 t_vote "P5328" = Raise (KeyError "P5328").
Proof.
  apply (absent_variable_raises t_vote "P5328").
  exact (bool_decide_unpack ("P5328"%string ∉ columns t_vote) I).
Defined.

(** X15 (a table without WEIGHT): the tolerance for missing columns does
    not extend to WEIGHT.  The grouped indicators and the frame [likert_df]
    raise KeyError for it whatever their dict; the weighted percentage, the
    weighted mean and the mean of the ideology scale raise it as soon as
    the table has the variable (as a column of numbers, for the two means);
    the category distribution then raises the KeyError of the selection
    from the groups, whose message is "Column not found: WEIGHT". *)
Theorem absent_weight_raises (df : DataFrame) :
  "WEIGHT"%string ∉ columns df ->
  (forall group_map : list (string * list string),
     plot_grouped_reasons df group_map = Raise (KeyError "WEIGHT")) /\
  (forall importance_vars : list (string * string),
     likert_df df importance_vars = Raise (KeyError "WEIGHT")) /\
  (forall (var : string) (v : Q),
     var ∈ columns df ->
     porcentaje_ponderado df var v = Raise (KeyError "WEIGHT")) /\
  (forall (var : string) (labels : list (Q * string)),
     var ∈ columns df ->
     plot_weighted_bar df var labels
     = Raise (KeyError "Column not found: WEIGHT")) /\
  (forall (var : string) (vs : list (option Q)),
     get_column var df = Some (Float64 vs) ->
     weighted_mean df var = Raise (KeyError "WEIGHT") /\
     w_mean_1_10 df var = Raise (KeyError "WEIGHT")).
Proof.
  intros Hn. pose proof (getitem_absent df _ Hn) as Hg. repeat split.
  - intros gm. unfold plot_grouped_reasons. by rewrite Hg.
  - intros vars. unfold likert_df. by rewrite Hg.
  - intros var v Hin. apply in_columns_elem in Hin as Hc.
    apply in_columns_get in Hc as [s Hs].
    unfold porcentaje_ponderado, loc. rewrite (in_columns_Some _ _ _ Hs),
      (getitem_Some _ _ _ Hs), Hg. reflexivity.
  - intros var labels Hin. apply in_columns_elem, in_columns_get in Hin as [s Hs].
    apply get_column_None in Hn.
    unfold plot_weighted_bar, groupby_sum.
    by rewrite (getitem_Some _ _ _ Hs), Hn.
  - unfold weighted_mean, loc. rewrite (in_columns_Some _ _ _ H),
      (getitem_Some _ _ _ H), Hg. reflexivity.
  - unfold w_mean_1_10, loc. rewrite (getitem_Some _ _ _ H), Hg. reflexivity.
Qed.

Lemma absent_weight_raises_witness :
  plot_grouped_reasons [("P6933"%string, Float64 [Some 1])] group_to_codes
  = Raise (KeyError "WEIGHT").
Proof.
  apply (absent_weight_raises [("P6933"%string, Float64 [Some 1])]).
  exact (bool_decide_unpack
           ("WEIGHT"%string ∉ columns [("P6933"%string, Float64 [Some 1])]) I).
Defined.

(** ** The range of the category distribution *)



